(** * exapy: response-envelope decoding and the schema-validated models

    A shallow embedding of [exapy/models.py] and of the decoding part of
    [exapy/client.py].

    The model classes are pydantic [BaseModel]s; what a class does with a
    raw mapping is decided by its field annotations, so each class is
    embedded as a record together with a validator assembled, field by
    field, from the annotation of the source.  The combinators follow the
    validation rules of pydantic 2 in its default (lax) mode, the one the
    repository's own test pins down: [tests/test_models.py] expects
    [Account(name=123, ...)] to raise [ValidationError], which a [str]
    field does only under the rules of version 2.  Under these rules a
    field without a default value is required, also when its annotation
    is [Optional[...]].

    A model that refers to itself, [PathInfo], is validated under the
    recursion guard of the library, which refuses input nested deeper
    than its limit.

    Floating-point numbers and the text-to-number conversions of the lax
    mode are not fixed here: they are the fields of the class [Numeric];
    the limit of the recursion guard is the field of [RecursionGuard].
    The theorems hold for all of its instances; the sample payloads at
    the end are run on one of them. *)

From Stdlib Require Import ZArith String Ascii List Bool Btauto Lia.
From Stdlib Require Import SpecFloat.
From Stdlib.Strings Require Import Byte.
Import ListNotations.

#[local] Open Scope string_scope.
#[local] Open Scope Z_scope.

(** ** Numbers of the host language *)

(** Python's [float] and the numeric conversions the validators fall back
    on when an input is not of the annotated type. *)
Class Numeric : Type := {
  float : Type;
  int_as_float : Z -> option float;
  float_as_int : float -> option Z;
  bool_as_float : bool -> option float;
  str_as_int : string -> option Z;
  str_as_float : string -> option float
}.

(** The validation library validates a reference to a model that refers
    to itself under a guard that counts the references entered and not
    yet left.  [recursion_guard_limit] is the number of references that
    can be entered inside one another, a constant of the library (255 in
    its source); a reference met when that many are entered is refused
    with the error [recursion_loop]. *)
Class RecursionGuard : Type := {
  recursion_guard_limit : nat
}.

(** ** Parsed JSON: what [response.json()] hands to the client *)

Module Json.
Section WithNumeric.
Context {N : Numeric}.

Unset Elimination Schemes.
Inductive json : Type :=
| JNull
| JBool (b : bool)
| JInt (z : Z)
| JFloat (f : float)
| JStr (s : string)
| JList (l : list json)
| JDict (d : list (string * json)).
Set Elimination Schemes.

(** A Python [dict] with string keys, in insertion order. *)
Definition dict : Type := list (string * json).

(** [d.get(k)]: the value stored under [k], if any. *)
Fixpoint get (k : string) (d : dict) : option json :=
  match d with
  | [] => None
  | (k', x) :: d' => if String.eqb k k' then Some x else get k d'
  end.

(** [isinstance(x, dict)], [isinstance(x, list)], [isinstance(x, str)],
    [x is None]. *)
Definition is_dict (x : json) : bool :=
  match x with JDict _ => true | _ => false end.

Definition is_list (x : json) : bool :=
  match x with JList _ => true | _ => false end.

Definition is_str (x : json) : bool :=
  match x with JStr _ => true | _ => false end.

Definition is_none (x : json) : bool :=
  match x with JNull => true | _ => false end.

End WithNumeric.
End Json.
Export Json.

(** ** Validation outcomes that accumulate errors *)

Module Validation.

(** One step of an error location: a field (by its wire name), a list
    index, or the member of a union that was tried. *)
Inductive loc_item : Type :=
| Key (k : string)
| Idx (i : nat)
| Member (tag : string).

Inductive error_type : Type :=
| missing
| string_type
| int_type
| int_parsing
| int_from_float
| float_type
| float_parsing
| bool_type
| bool_parsing
| enum
| list_type
| dict_type
| model_type
| none_required
| recursion_loop.

Record error_details : Type := mkError {
  loc : list loc_item;
  err_type : error_type
}.

(** The outcome of validating one value: the validated value, or the
    list of everything that was found wrong with it. *)
Inductive validation (A : Type) : Type :=
| Valid (a : A)
| Invalid (errs : list error_details).

Arguments Valid {A} a.
Arguments Invalid {A} errs.

Definition errors {A} (v : validation A) : list error_details :=
  match v with Valid _ => [] | Invalid errs => errs end.

Definition is_valid {A} (v : validation A) : bool :=
  match v with Valid _ => true | Invalid _ => false end.

Definition fail {A} (t : error_type) : validation A :=
  Invalid [mkError [] t].

Definition fmap {A B} (f : A -> B) (v : validation A) : validation B :=
  match v with
  | Valid a => Valid (f a)
  | Invalid errs => Invalid errs
  end.

(** Applying a validated constructor to a validated field.  Both sides
    are always evaluated and their errors are concatenated: a model
    reports all of its failing fields at once. *)
Definition ap {A B} (f : validation (A -> B)) (v : validation A)
  : validation B :=
  match f, v with
  | Valid g, Valid a => Valid (g a)
  | Valid _, Invalid errs => Invalid errs
  | Invalid errs, Valid _ => Invalid errs
  | Invalid errs1, Invalid errs2 => Invalid (errs1 ++ errs2)
  end.

(** Errors raised below a field or an item are reported under it. *)
Definition under (i : loc_item) (e : error_details) : error_details :=
  mkError (i :: loc e) (err_type e).

Definition at_loc {A} (i : loc_item) (v : validation A) : validation A :=
  match v with
  | Valid a => Valid a
  | Invalid errs => Invalid (map (under i) errs)
  end.

(** Whether some error is located at or below field [k]. *)
Definition cites (k : string) (errs : list error_details) : bool :=
  existsb (fun e => match loc e with
                    | Key k' :: _ => String.eqb k k'
                    | _ => false
                    end) errs.

(** A failed validation says what failed. *)
Definition proper {A} (v : validation A) : Prop := v <> Invalid [].


(** [e] is among the errors of the failed validation [v]. *)
Definition fails_with {A} (e : error_details) (v : validation A) : Prop :=
  exists errs, v = Invalid errs /\ In e errs.

End Validation.
Export Validation.

Notation "f <$> v" := (fmap f v) (at level 61, left associativity).
Notation "f <*> v" := (ap f v) (at level 61, left associativity).

(** ** Field validators, following the annotations *)

Module Pydantic.
Section WithNumeric.
Context {N : Numeric}.

Definition validator (A : Type) : Type := json -> validation A.

(** Text accepted for a [bool] in lax mode, compared without regard to
    ASCII case. *)
Definition ascii_lower (c : ascii) : ascii :=
  let n := nat_of_ascii c in
  if andb (Nat.leb 65 n) (Nat.leb n 90) then ascii_of_nat (n + 32) else c.

Fixpoint lower (s : string) : string :=
  match s with
  | EmptyString => EmptyString
  | String c s' => String (ascii_lower c) (lower s')
  end.

Definition mem_str (s : string) (l : list string) : bool :=
  existsb (String.eqb s) l.

Definition str_as_bool (s : string) : option bool :=
  if String.eqb s "0" || mem_str (lower s) ["f"; "n"; "no"; "off"; "false"]
  then Some false
  else if String.eqb s "1" || mem_str (lower s) ["t"; "y"; "on"; "yes"; "true"]
  then Some true
  else None.

Definition int_as_bool (z : Z) : option bool :=
  match z with
  | 0 => Some false
  | 1 => Some true
  | _ => None
  end.

(** [str]: only a string is a string, in both modes. *)
Definition str_v (strict : bool) : validator string :=
  fun x =>
    match x with
    | JStr s => Valid s
    | _ => fail string_type
    end.

(** [int]: an integer as it is; in lax mode also a boolean, a float
    without fractional part and text that reads as an integer. *)
Definition int_v (strict : bool) : validator Z :=
  fun x =>
    match x with
    | JInt z => Valid z
    | JBool b =>
        if strict then fail int_type else Valid (if b then 1 else 0)
    | JFloat f =>
        if strict then fail int_type
        else match float_as_int f with
             | Some z => Valid z
             | None => fail int_from_float
             end
    | JStr s =>
        if strict then fail int_type
        else match str_as_int s with
             | Some z => Valid z
             | None => fail int_parsing
             end
    | _ => fail int_type
    end.

(** [float]: a float as it is and an integer converted, in both modes;
    in lax mode also what the numeric conversions accept. *)
Definition float_v (strict : bool) : validator float :=
  fun x =>
    match x with
    | JFloat f => Valid f
    | JInt z =>
        match int_as_float z with
        | Some f => Valid f
        | None => fail float_type
        end
    | JBool b =>
        if strict then fail float_type
        else match bool_as_float b with
             | Some f => Valid f
             | None => fail float_type
             end
    | JStr s =>
        if strict then fail float_type
        else match str_as_float s with
             | Some f => Valid f
             | None => fail float_parsing
             end
    | _ => fail float_type
    end.

(** [bool]: a boolean as it is; in lax mode also 0 and 1, as integer or
    float, and the accepted words. *)
Definition bool_v (strict : bool) : validator bool :=
  fun x =>
    match x with
    | JBool b => Valid b
    | JInt z =>
        if strict then fail bool_type
        else match int_as_bool z with
             | Some b => Valid b
             | None => fail bool_parsing
             end
    | JFloat f =>
        if strict then fail bool_type
        else match float_as_int f with
             | Some z =>
                 match int_as_bool z with
                 | Some b => Valid b
                 | None => fail bool_parsing
                 end
             | None => fail bool_type
             end
    | JStr s =>
        if strict then fail bool_type
        else match str_as_bool s with
             | Some b => Valid b
             | None => fail bool_parsing
             end
    | _ => fail bool_type
    end.

(** The bare annotations [dict], [list] and [None] of [Response.data]:
    the value itself when it has that Python type. *)
Definition dict_v (strict : bool) : validator json :=
  fun x => if is_dict x then Valid x else fail dict_type.

Definition any_list_v (strict : bool) : validator json :=
  fun x => if is_list x then Valid x else fail list_type.

Definition none_v (strict : bool) : validator json :=
  fun x => if is_none x then Valid x else fail none_required.

(** [Optional[T]]: [None] stays [None], anything else is a [T]. *)
Definition nullable {A} (v : validator A) : validator (option A) :=
  fun x =>
    match x with
    | JNull => Valid None
    | _ => Some <$> v x
    end.

(** [list[T]]: every item is validated, under its index. *)
Definition items {A} (v : validator A) : nat -> list json -> validation (list A) :=
  fix go (i : nat) (l : list json) : validation (list A) :=
    match l with
    | [] => Valid []
    | x :: l' => cons <$> at_loc (Idx i) (v x) <*> go (S i) l'
    end.

Definition list_of {A} (v : validator A) : validator (list A) :=
  fun x =>
    match x with
    | JList l => items v 0%nat l
    | _ => fail list_type
    end.

(** A reference to a model that refers to itself, met when [active]
    references are entered: the guard lets the model's validator [v] run
    unless the limit is reached. *)
Definition guarded {G : RecursionGuard} {A} (active : nat) (v : validator A)
  : validator A :=
  fun x =>
    if Nat.ltb active recursion_guard_limit then v x else fail recursion_loop.

(** A field that is a model itself takes a mapping. *)
Definition model_v {A} (validate : dict -> validation A) : validator A :=
  fun x =>
    match x with
    | JDict d => validate d
    | _ => fail model_type
    end.

(** A field without default: the key has to be there.  The validator is
    applied to the value found under the wire name [k]. *)
Definition required {A} (k : string) (v : validator A) : dict -> validation A :=
  fix find (d : dict) : validation A :=
    match d with
    | [] => Invalid [mkError [Key k] missing]
    | (k', x) :: d' =>
        if String.eqb k k' then at_loc (Key k) (v x) else find d'
    end.

(** [Union[...]] in smart mode: the first member that accepts the value
    in strict mode, else the first that accepts it in lax mode, else the
    errors of all members. *)
Fixpoint first_valid {A} (l : list (validation A)) : option A :=
  match l with
  | [] => None
  | Valid a :: _ => Some a
  | Invalid _ :: l' => first_valid l'
  end.

Definition union {A} (members : list (string * (bool -> validator A)))
  : validator A :=
  fun x =>
    match first_valid (map (fun m => snd m true x) members) with
    | Some a => Valid a
    | None =>
        match first_valid (map (fun m => snd m false x) members) with
        | Some a => Valid a
        | None =>
            Invalid (flat_map
                       (fun m => errors (at_loc (Member (fst m)) (snd m false x)))
                       members)
        end
    end.

(** A declared field, as far as acceptance goes: its wire name and the
    values its annotation accepts. *)
Definition field_spec : Type := (string * (json -> bool))%type.

(** A field is violated by a mapping that lacks its key or holds a value
    its annotation does not accept. *)
Definition violates (f : field_spec) (d : dict) : bool :=
  match get (fst f) d with
  | None => true
  | Some x => negb (snd f x)
  end.

Definition accepts {A} (v : validator A) : json -> bool :=
  fun x => is_valid (v x).

(** [validate] either yields a record, when no declared field is
    violated, or an error list that cites exactly the violated fields,
    all of them, and nothing but declared fields. *)
Definition all_or_nothing {A}
  (validate : dict -> validation A) (fields : list field_spec) : Prop :=
  forall d,
    is_valid (validate d) = forallb (fun f => negb (violates f d)) fields
    /\ (is_valid (validate d) = false -> errors (validate d) <> [])
    /\ (forall f, In f fields ->
          cites (fst f) (errors (validate d)) = violates f d)
    /\ Forall (fun e => exists f, In f fields /\
                 hd_error (loc e) = Some (Key (fst f)))
         (errors (validate d)).

(** [validate] reads a mapping only through the values stored under the
    wire names of the declared fields. *)
Definition reads_only {A}
  (validate : dict -> validation A) (fields : list field_spec) : Prop :=
  forall d1 d2,
    (forall f, In f fields -> get (fst f) d1 = get (fst f) d2) ->
    validate d1 = validate d2.

End WithNumeric.
End Pydantic.
Export Pydantic.

(** ** [exapy/models.py] *)

(** [class ServerStatus(Enum)]: ten members, the value 9 is not used. *)
Module ServerStatus.
Section WithNumeric.
Context {N : Numeric}.

Inductive t : Type :=
| offline
| online
| starting
| stopping
| restarting
| saving
| loading
| crashed
| pending
| preparing.

(** [member.value] *)
Definition value (s : t) : Z :=
  match s with
  | offline => 0
  | online => 1
  | starting => 2
  | stopping => 3
  | restarting => 4
  | saving => 5
  | loading => 6
  | crashed => 7
  | pending => 8
  | preparing => 10
  end.

(** The members in the order of their declaration. *)
Definition members : list t :=
  [offline; online; starting; stopping; restarting; saving; loading;
   crashed; pending; preparing].

(** [ServerStatus(z)]: the member whose value is [z]; Python raises
    [ValueError] when there is none. *)
Definition of_value (z : Z) : option t :=
  find (fun m => Z.eqb (value m) z) members.

Definition of_value_v (z : Z) : validation t :=
  match of_value z with
  | Some s => Valid s
  | None => fail enum
  end.

(** A field annotated [ServerStatus].  The lookup is by value, so what
    compares equal to a member's value (a boolean, a float without
    fractional part) finds that member; text, [None] and containers
    find none. *)
Definition validate : validator t :=
  fun x =>
    match x with
    | JInt z => of_value_v z
    | JBool b => of_value_v (if b then 1 else 0)
    | JFloat f =>
        match float_as_int f with
        | Some z => of_value_v z
        | None => fail enum
        end
    | _ => fail enum
    end.

End WithNumeric.
End ServerStatus.

Module Account.
Section WithNumeric.
Context {N : Numeric}.

Record t : Type := mk {
  name : string;
  email : string;
  verified : bool;
  credits : float
}.

(** [models.Account] called with the items of [d] as keyword arguments. *)
Definition validate (d : dict) : validation t :=
  Valid mk
    <*> required "name" (str_v false) d
    <*> required "email" (str_v false) d
    <*> required "verified" (bool_v false) d
    <*> required "credits" (float_v false) d.

(** The declared fields: wire name and accepted values. *)
Definition fields : list field_spec :=
  [("name", accepts (str_v false));
   ("email", accepts (str_v false));
   ("verified", accepts (bool_v false));
   ("credits", accepts (float_v false))].

(** The wire form of a record: the mapping the service sends for it. *)
Definition to_wire (a : t) : dict :=
  [("name", JStr (name a));
   ("email", JStr (email a));
   ("verified", JBool (verified a));
   ("credits", JFloat (credits a))].

End WithNumeric.
End Account.

Module ServerPlayers.
Section WithNumeric.
Context {N : Numeric}.

Record t : Type := mk {
  max : Z;
  count : Z;
  list : Datatypes.list string
}.

Definition validate (d : dict) : validation t :=
  Valid mk
    <*> required "max" (int_v false) d
    <*> required "count" (int_v false) d
    <*> required "list" (list_of (str_v false)) d.

(** The declared fields: wire name and accepted values. *)
Definition fields : Datatypes.list field_spec :=
  [("max", accepts (int_v false));
   ("count", accepts (int_v false));
   ("list", accepts (list_of (str_v false)))].

(** The wire form of a record: the mapping the service sends for it. *)
Definition to_wire (p : t) : dict :=
  [("max", JInt (max p));
   ("count", JInt (count p));
   ("list", JList (map JStr (list p)))].

End WithNumeric.
End ServerPlayers.

Module ServerSoftware.
Section WithNumeric.
Context {N : Numeric}.

Record t : Type := mk {
  id : string;
  name : string;
  version : string
}.

Definition validate (d : dict) : validation t :=
  Valid mk
    <*> required "id" (str_v false) d
    <*> required "name" (str_v false) d
    <*> required "version" (str_v false) d.

(** The declared fields: wire name and accepted values. *)
Definition fields : list field_spec :=
  [("id", accepts (str_v false));
   ("name", accepts (str_v false));
   ("version", accepts (str_v false))].

(** The wire form of a record: the mapping the service sends for it. *)
Definition to_wire (s : t) : dict :=
  [("id", JStr (id s));
   ("name", JStr (name s));
   ("version", JStr (version s))].

End WithNumeric.
End ServerSoftware.

Module Server.
Section WithNumeric.
Context {N : Numeric}.

Record t : Type := mk {
  id : string;
  name : string;
  address : string;
  motd : string;
  status : ServerStatus.t;
  host : option string;
  port : option Z;
  players : ServerPlayers.t;
  software : option ServerSoftware.t;
  shared : bool
}.

Definition validate (d : dict) : validation t :=
  Valid mk
    <*> required "id" (str_v false) d
    <*> required "name" (str_v false) d
    <*> required "address" (str_v false) d
    <*> required "motd" (str_v false) d
    <*> required "status" ServerStatus.validate d
    <*> required "host" (nullable (str_v false)) d
    <*> required "port" (nullable (int_v false)) d
    <*> required "players" (model_v ServerPlayers.validate) d
    <*> required "software" (nullable (model_v ServerSoftware.validate)) d
    <*> required "shared" (bool_v false) d.

(** The declared fields: wire name and accepted values. *)
Definition fields : list field_spec :=
  [("id", accepts (str_v false));
   ("name", accepts (str_v false));
   ("address", accepts (str_v false));
   ("motd", accepts (str_v false));
   ("status", accepts ServerStatus.validate);
   ("host", accepts (nullable (str_v false)));
   ("port", accepts (nullable (int_v false)));
   ("players", accepts (model_v ServerPlayers.validate));
   ("software", accepts (nullable (model_v ServerSoftware.validate)));
   ("shared", accepts (bool_v false))].

(** The wire form of a record: the mapping the service sends for it,
    the status as its number, [null] for what is absent. *)
Definition to_wire (s : t) : dict :=
  [("id", JStr (id s));
   ("name", JStr (name s));
   ("address", JStr (address s));
   ("motd", JStr (motd s));
   ("status", JInt (ServerStatus.value (status s)));
   ("host", match host s with Some h => JStr h | None => JNull end);
   ("port", match port s with Some p => JInt p | None => JNull end);
   ("players", JDict (ServerPlayers.to_wire (players s)));
   ("software", match software s with
                | Some w => JDict (ServerSoftware.to_wire w)
                | None => JNull
                end);
   ("shared", JBool (shared s))].

End WithNumeric.
End Server.

Module LogUpload.
Section WithNumeric.
Context {N : Numeric}.

Record t : Type := mk {
  id : string;
  url : string;
  raw : string
}.

Definition validate (d : dict) : validation t :=
  Valid mk
    <*> required "id" (str_v false) d
    <*> required "url" (str_v false) d
    <*> required "raw" (str_v false) d.

(** The declared fields: wire name and accepted values. *)
Definition fields : list field_spec :=
  [("id", accepts (str_v false));
   ("url", accepts (str_v false));
   ("raw", accepts (str_v false))].

(** The wire form of a record: the mapping the service sends for it. *)
Definition to_wire (l : t) : dict :=
  [("id", JStr (id l));
   ("url", JStr (url l));
   ("raw", JStr (raw l))].

End WithNumeric.
End LogUpload.

(** [class PathInfo]: a node owns the list of its children, which are
    nodes again.  Six fields are read from the wire under an alias. *)
Module PathInfo.
Section WithNumeric.
Context {N : Numeric} {G : RecursionGuard}.

Unset Elimination Schemes.
Inductive t : Type := mk {
  path : string;
  name : string;
  is_text_file : bool;
  is_config_file : bool;
  is_directory : bool;
  is_log : bool;
  is_readable : bool;
  is_writable : bool;
  size : Z;
  children : option (list t)
}.
Set Elimination Schemes.

(** A value met where a [PathInfo] is expected, when [active]
    references to [PathInfo] are entered.  The children of a node are
    references to [PathInfo]: each is validated under the guard, one
    reference further in. *)
Fixpoint validate_nested (active : nat) (x : json) : validation t :=
  match x with
  | JDict d =>
      Valid mk
        <*> required "path" (str_v false) d
        <*> required "name" (str_v false) d
        <*> required "isTextFile" (bool_v false) d
        <*> required "isConfigFile" (bool_v false) d
        <*> required "isDirectory" (bool_v false) d
        <*> required "isLog" (bool_v false) d
        <*> required "isReadable" (bool_v false) d
        <*> required "isWritable" (bool_v false) d
        <*> required "size" (int_v false) d
        <*> required "children"
              (nullable (list_of (guarded active (validate_nested (S active)))))
              d
  | _ => fail model_type
  end.

(** A value met where the outermost [PathInfo] is expected. *)
Definition validate_value (x : json) : validation t :=
  validate_nested 0 x.

(** [models.PathInfo] called with the items of [d] as keyword arguments. *)
Definition validate (d : dict) : validation t :=
  validate_value (JDict d).

(** The declared fields: wire name and accepted values. *)
Definition fields : list field_spec :=
  [("path", accepts (str_v false));
   ("name", accepts (str_v false));
   ("isTextFile", accepts (bool_v false));
   ("isConfigFile", accepts (bool_v false));
   ("isDirectory", accepts (bool_v false));
   ("isLog", accepts (bool_v false));
   ("isReadable", accepts (bool_v false));
   ("isWritable", accepts (bool_v false));
   ("size", accepts (int_v false));
   ("children",
    accepts (nullable (list_of (guarded 0 (validate_nested 1)))))].

(** The wire form of a node: the JSON object the service sends for it,
    with the aliased keys, [null] for absent children. *)
Fixpoint to_wire (n : t) : json :=
  JDict [("path", JStr (path n));
         ("name", JStr (name n));
         ("isTextFile", JBool (is_text_file n));
         ("isConfigFile", JBool (is_config_file n));
         ("isDirectory", JBool (is_directory n));
         ("isLog", JBool (is_log n));
         ("isReadable", JBool (is_readable n));
         ("isWritable", JBool (is_writable n));
         ("size", JInt (size n));
         ("children", match children n with
                      | None => JNull
                      | Some l => JList (map to_wire l)
                      end)].




End WithNumeric.
End PathInfo.

Module ConfigOption.
Section WithNumeric.
Context {N : Numeric}.

(** A value of [Union[str, int, float, bool]], with its Python type. *)
Inductive scalar : Type :=
| Str (s : string)
| Int (z : Z)
| Float (f : float)
| Bool (b : bool).

Definition scalar_v : validator scalar :=
  union [("str", fun strict x => Str <$> str_v strict x);
         ("int", fun strict x => Int <$> int_v strict x);
         ("float", fun strict x => Float <$> float_v strict x);
         ("bool", fun strict x => Bool <$> bool_v strict x)].

Record t : Type := mk {
  key : string;
  value : scalar;
  label : string;
  (* this type defined the type of value *)
  type : string;
  (* options is used for select and multiselect types *)
  options : option (list scalar)
}.

Definition validate (d : dict) : validation t :=
  Valid mk
    <*> required "key" (str_v false) d
    <*> required "value" scalar_v d
    <*> required "label" (str_v false) d
    <*> required "type" (str_v false) d
    <*> required "options" (nullable (list_of scalar_v)) d.

(** The declared fields: wire name and accepted values. *)
Definition fields : list field_spec :=
  [("key", accepts (str_v false));
   ("value", accepts scalar_v);
   ("label", accepts (str_v false));
   ("type", accepts (str_v false));
   ("options", accepts (nullable (list_of scalar_v)))].

(** The JSON scalar a value of the union comes from. *)
Definition to_json (x : scalar) : json :=
  match x with
  | Str s => JStr s
  | Int z => JInt z
  | Float f => JFloat f
  | Bool b => JBool b
  end.

(** The wire form of a record: the mapping the service sends for it,
    every scalar as the JSON value of its kind. *)
Definition to_wire (o : t) : dict :=
  [("key", JStr (key o));
   ("value", to_json (value o));
   ("label", JStr (label o));
   ("type", JStr (type o));
   ("options", match options o with
               | Some l => JList (map to_json l)
               | None => JNull
               end)].

End WithNumeric.
End ConfigOption.

(** ** [exapy/client.py] *)

Module Response.
Section WithNumeric.
Context {N : Numeric}.

(** [data: Optional[Union[dict, list, str, None]]]: the value is kept as
    it came, [None] included. *)
Definition data_v : validator json :=
  fun x =>
    (fun o => match o with Some y => y | None => JNull end)
      <$> nullable (union [("dict", dict_v); ("list", any_list_v);
                           ("str", fun strict y => JStr <$> str_v strict y);
                           ("none", none_v)]) x.

Record t : Type := mk {
  success : bool;
  error : option string;
  data : json
}.

Definition validate (d : dict) : validation t :=
  Valid mk
    <*> required "success" (bool_v false) d
    <*> required "error" (nullable (str_v false)) d
    <*> required "data" data_v d.

(** The declared fields: wire name and accepted values. *)
Definition fields : list field_spec :=
  [("success", accepts (bool_v false));
   ("error", accepts (nullable (str_v false)));
   ("data", accepts data_v)].

End WithNumeric.
End Response.

Module Client.

Inductive verb : Type := GET | POST | PUT | DELETE.

(** What a call can raise.  [ExaError] is the client's own exception
    and carries the argument it was raised with; the others come from
    the language ([AssertionError], [TypeError], [KeyError]), from the
    validation of a model ([ValidationError]) and from the transport. *)
Inductive exn : Type :=
| ExaError (arg : option string)
| AssertionError
| ValidationError (errs : list error_details)
| TypeError
| KeyError (k : string)
| ClientError (status : Z).

Inductive outcome (A : Type) : Type :=
| Return (a : A)
| Raise (e : exn).

Arguments Return {A} a.
Arguments Raise {A} e.

Definition bind {A B} (c : outcome A) (k : A -> outcome B) : outcome B :=
  match c with
  | Return a => k a
  | Raise e => Raise e
  end.

#[local] Notation "x <- c ;; k" := (bind c (fun x => k))
  (at level 100, c at next level, right associativity).
#[local] Notation "c ;; k" := (bind c (fun _ => k))
  (at level 100, right associativity).

(** [assert b] *)
Definition assert (b : bool) : outcome unit :=
  if b then Return tt else Raise AssertionError.

Section WithNumeric.
Context {N : Numeric} {G : RecursionGuard}.

(** [Model] called with the items of [x] as keyword arguments:
    unpacking needs a mapping; a failed validation raises
    [ValidationError] with the collected errors. *)
Definition construct {A} (validate : dict -> validation A) (x : json)
  : outcome A :=
  match x with
  | JDict d =>
      match validate d with
      | Valid a => Return a
      | Invalid errs => Raise (ValidationError errs)
      end
  | _ => Raise TypeError
  end.

(** [x[k]] on what has been asserted to be a [dict]. *)
Definition subscript (x : json) (k : string) : outcome json :=
  match x with
  | JDict d =>
      match get k d with
      | Some y => Return y
      | None => Raise (KeyError k)
      end
  | _ => Raise TypeError
  end.

(** [for x in l: out.append(f(x))], stopping at the first exception. *)
Fixpoint for_each {A B} (f : A -> outcome B) (l : list A) : outcome (list B) :=
  match l with
  | [] => Return []
  | x :: l' => y <- f x ;; ys <- for_each f l' ;; Return (y :: ys)
  end.

Definition BASE_URL : string := "https://api.exaroton.com/v1/".

(** The transport: a request with a verb, a URL, the bearer token and
    an optional JSON body gives the parsed body of the response, unless
    [raise_for_status()] or [response.json()] raises. *)
Variable request : verb -> string -> string -> option dict -> outcome json.

Record Client : Type := { _token : string }.

Variable self : Client.

Definition _get_data (route : string) : outcome json :=
  raw_response_data <- request GET (BASE_URL ++ route) (_token self) None ;;
  response_data <- construct Response.validate raw_response_data ;;
  if Response.success response_data
  then Return (Response.data response_data)
  else Raise (ExaError (Response.error response_data)).

Definition _post_object (route : string) (object : dict) : outcome json :=
  raw_response_data <- request POST (BASE_URL ++ route) (_token self) (Some object) ;;
  response_data <- construct Response.validate raw_response_data ;;
  if Response.success response_data
  then
    assert (negb (is_none (Response.data response_data))) ;;
    Return (Response.data response_data)
  else Raise (ExaError (Response.error response_data)).

Definition _put_object (route : string) (object : dict) : outcome json :=
  raw_response_data <- request PUT (BASE_URL ++ route) (_token self) (Some object) ;;
  response_data <- construct Response.validate raw_response_data ;;
  if Response.success response_data
  then
    assert (negb (is_none (Response.data response_data))) ;;
    Return (Response.data response_data)
  else Raise (ExaError (Response.error response_data)).

Definition _delete_object (route : string) (object : dict) : outcome json :=
  raw_response_data <- request DELETE (BASE_URL ++ route) (_token self) (Some object) ;;
  response_data <- construct Response.validate raw_response_data ;;
  if Response.success response_data
  then
    assert (negb (is_none (Response.data response_data))) ;;
    Return (Response.data response_data)
  else Raise (ExaError (Response.error response_data)).

Definition account : outcome Account.t :=
  data <- _get_data "account" ;;
  assert (is_dict data) ;;
  construct Account.validate data.

(** The items a [for] loop visits in what has been asserted to be a
    [list]. *)
Definition elements (x : json) : list json :=
  match x with JList l => l | _ => [] end.

Definition servers : outcome (list Server.t) :=
  data <- _get_data "servers" ;;
  assert (is_list data) ;;
  for_each (construct Server.validate) (elements data).

Definition server (server_id : string) : outcome Server.t :=
  data <- _get_data ("servers/" ++ server_id) ;;
  assert (is_dict data) ;;
  construct Server.validate data.

Definition log (server_id : string) : outcome json :=
  data <- _get_data ("servers/" ++ server_id ++ "/logs") ;;
  assert (is_dict data) ;;
  subscript data "content".

Definition share_log (server_id : string) : outcome LogUpload.t :=
  data <- _get_data ("servers/" ++ server_id ++ "/logs/share") ;;
  assert (is_dict data) ;;
  construct LogUpload.validate data.

Definition ram (server_id : string) : outcome json :=
  data <- _get_data ("servers/" ++ server_id ++ "/options/ram") ;;
  assert (is_dict data) ;;
  subscript data "ram".

Definition set_ram (server_id : string) (ram : Z) : outcome json :=
  let new_ram := [("ram", JInt ram)] in
  data <- _post_object ("servers/" ++ server_id ++ "/options/ram") new_ram ;;
  assert (is_dict data) ;;
  subscript data "ram".

Definition motd (server_id : string) : outcome json :=
  data <- _get_data ("servers/" ++ server_id ++ "/options/motd") ;;
  assert (is_dict data) ;;
  subscript data "motd".

Definition set_motd (server_id : string) (motd : string) : outcome json :=
  let new_motd := [("motd", JStr motd)] in
  data <- _post_object ("servers/" ++ server_id ++ "/options/motd") new_motd ;;
  assert (is_dict data) ;;
  subscript data "motd".

Definition start (server_id : string) (use_own_credits : bool) : outcome json :=
  data <- (if use_own_credits
           then
             let use_credits := [("useOwnCredits", JBool true)] in
             _post_object ("servers/" ++ server_id ++ "/start") use_credits
           else _get_data ("servers/" ++ server_id ++ "/start")) ;;
  (* what is this string? *)
  assert (is_str data || is_none data) ;;
  Return data.

Definition stop (server_id : string) : outcome json :=
  data <- _get_data ("servers/" ++ server_id ++ "/stop") ;;
  assert (is_str data || is_none data) ;;
  Return data.

Definition restart (server_id : string) : outcome json :=
  data <- _get_data ("servers/" ++ server_id ++ "/restart") ;;
  assert (is_str data || is_none data) ;;
  Return data.

Definition execute_command (server_id command : string) : outcome json :=
  let command_object := [("command", JStr command)] in
  data <- _post_object ("servers/" ++ server_id ++ "/command") command_object ;;
  assert (is_str data || is_none data) ;;
  Return data.

Definition enabled_playerlists (server_id : string) : outcome json :=
  data <- _get_data ("servers/" ++ server_id ++ "/playerlists") ;;
  assert (is_list data) ;;
  Return data.

Definition playerlist_content (server_id list_name : string) : outcome json :=
  data <- _get_data ("servers/" ++ server_id ++ "/playerlists/" ++ list_name) ;;
  assert (is_list data) ;;
  Return data.

Definition add_to_playerlist (server_id list_name : string)
  (content : list string) : outcome json :=
  let create_object := [("entries", JList (map JStr content))] in
  data <- _put_object ("servers/" ++ server_id ++ "/playerlists/" ++ list_name)
            create_object ;;
  assert (is_list data) ;;
  Return data.

Definition remove_from_playerlist (server_id list_name : string)
  (content : list string) : outcome json :=
  let delete_object := [("entries", JList (map JStr content))] in
  data <- _delete_object ("servers/" ++ server_id ++ "/playerlists/" ++ list_name)
            delete_object ;;
  assert (is_list data) ;;
  Return data.

Definition path_info (server_id path : string) : outcome PathInfo.t :=
  data <- _get_data ("servers/" ++ server_id ++ "/files/info/" ++ path) ;;
  assert (is_dict data) ;;
  construct PathInfo.validate data.

Definition get_config_options (server_id path : string)
  : outcome (list ConfigOption.t) :=
  data <- _get_data ("servers/" ++ server_id ++ "/files/config/" ++ path) ;;
  assert (is_list data) ;;
  for_each (construct ConfigOption.validate) (elements data).

Definition set_config_options (server_id : string) (options : dict)
  (path : string) : outcome (list ConfigOption.t) :=
  data <- _post_object ("servers/" ++ server_id ++ "/files/config/" ++ path)
            options ;;
  assert (is_list data) ;;
  for_each (construct ConfigOption.validate) (elements data).

End WithNumeric.

Section Service.
Context {N : Numeric}.

(** A service that answers every request with the body [raw]. *)
Definition replies (raw : json)
  : verb -> string -> string -> option dict -> outcome json :=
  fun _ _ _ _ => Return raw.

(** The body [{"success": ..., "error": ..., "data": ...}]. *)
Definition envelope (success : bool) (error data : json) : json :=
  JDict [("success", JBool success); ("error", error); ("data", data)].

(** The shapes [Response.data] is declared with. *)
Definition is_payload (x : json) : bool :=
  is_dict x || is_list x || is_str x || is_none x.

(** A service whose every request has the outcome [o]; with an
    exception for [o], a transport that fails. *)
Definition answers (o : outcome json)
  : verb -> string -> string -> option dict -> outcome json :=
  fun _ _ _ _ => o.

End Service.
End Client.

(** ** [exapy/client.py]: the content of files *)

(** The four methods of [Client] that move the content of a file open
    their own session.  The session is created with its headers; a
    request has a verb, a URL and optionally raw data, and gives a
    response unless [raise_for_status()] raises; a response is read as
    JSON or as bytes. *)
Module Files.
Import Client.

#[local] Notation "x <- c ;; k" := (bind c (fun x => k))
  (at level 100, c at next level, right associativity).
#[local] Notation "c ;; k" := (bind c (fun _ => k))
  (at level 100, right associativity).

Definition bytes : Type := list Byte.byte.

Definition headers : Type := list (string * string).

Section WithNumeric.
Context {N : Numeric}.

Variable response : Type.
Variable session : headers -> verb -> string -> option bytes -> outcome response.
Variable response_json : response -> outcome json.
Variable response_read : response -> outcome bytes.

Variable self : Client.

Definition read_file_data (server_id path : string) : outcome bytes :=
  let headers := [("Authorization", "Bearer " ++ _token self)] in
  response <- session headers GET
                (BASE_URL ++ "servers/" ++ server_id ++ "/files/data/" ++ path)
                None ;;
  response_read response.

Definition write_file_data (server_id path : string) (data : bytes)
  : outcome json :=
  let headers := [("Authorization", "Bearer " ++ _token self)] in
  response <- session headers PUT
                (BASE_URL ++ "servers/" ++ server_id ++ "/files/data/" ++ path)
                (Some data) ;;
  raw_response_data <- response_json response ;;
  response_data <- construct Response.validate raw_response_data ;;
  if Response.success response_data
  then
    assert (is_str (Response.data response_data)
            || is_none (Response.data response_data)) ;;
    Return (Response.data response_data)
  else Raise (ExaError (Response.error response_data)).

Definition create_directory (server_id path : string) : outcome json :=
  let headers := [("Authorization", "Bearer " ++ _token self);
                  ("content-type", "inode/directory")] in
  response <- session headers PUT
                (BASE_URL ++ "servers/" ++ server_id ++ "/files/data/" ++ path)
                None ;;
  raw_response_data <- response_json response ;;
  response_data <- construct Response.validate raw_response_data ;;
  if Response.success response_data
  then
    assert (is_str (Response.data response_data)
            || is_none (Response.data response_data)) ;;
    Return (Response.data response_data)
  else Raise (ExaError (Response.error response_data)).

Definition delete_file_data (server_id path : string) : outcome json :=
  let headers := [("Authorization", "Bearer " ++ _token self)] in
  response <- session headers DELETE
                (BASE_URL ++ "servers/" ++ server_id ++ "/files/data/" ++ path)
                None ;;
  raw_response_data <- response_json response ;;
  response_data <- construct Response.validate raw_response_data ;;
  if Response.success response_data
  then
    assert (is_str (Response.data response_data)
            || is_none (Response.data response_data)) ;;
    Return (Response.data response_data)
  else Raise (ExaError (Response.error response_data)).

End WithNumeric.
End Files.

(** ** An instance to run the definitions on *)

(** Floats are IEEE 754 binary64 numbers; an integer too large for one
    has no float; a boolean is not taken for a float; text is read as a
    decimal integer literal with an optional sign. *)
Module Binary64.

Definition prec : Z := 53.
Definition emax : Z := 1024.

Definition of_int (z : Z) : option spec_float :=
  match binary_normalize prec emax z 0 false with
  | S754_infinity _ | S754_nan => None
  | f => Some f
  end.

Definition to_int (f : spec_float) : option Z :=
  match f with
  | S754_zero _ => Some 0
  | S754_finite s m e =>
      let magnitude :=
        if 0 <=? e then Some (Zpos m * 2 ^ e)
        else if Zpos m mod 2 ^ (- e) =? 0 then Some (Zpos m / 2 ^ (- e))
        else None in
      option_map (fun z => if s then - z else z) magnitude
  | _ => None
  end.

Definition digit (c : ascii) : option Z :=
  let n := Z.of_nat (nat_of_ascii c) in
  if (48 <=? n) && (n <=? 57) then Some (n - 48) else None.

Fixpoint digits (acc : Z) (s : string) : option Z :=
  match s with
  | EmptyString => Some acc
  | String c s' =>
      match digit c with
      | Some v => digits (10 * acc + v) s'
      | None => None
      end
  end.

Definition read_int (s : string) : option Z :=
  match s with
  | EmptyString => None
  | String "-" (String _ _ as s') => option_map Z.opp (digits 0 s')
  | String "+" (String _ _ as s') => digits 0 s'
  | _ => digits 0 s
  end.

Definition read_float (s : string) : option spec_float :=
  match read_int s with
  | Some z => of_int z
  | None => None
  end.

End Binary64.

#[local] Instance binary64 : Numeric := {|
  float := spec_float;
  int_as_float := Binary64.of_int;
  float_as_int := Binary64.to_int;
  bool_as_float := fun _ => None;
  str_as_int := Binary64.read_int;
  str_as_float := Binary64.read_float
|}.

(** The recursion guard with the limit of the library. *)
Definition pydantic_core : RecursionGuard := {|
  recursion_guard_limit := 255
|}.

(** ** The payloads of [tests/test_models.py] and some more *)

Module Samples.

Definition normal_account : @dict binary64 :=
  [("name", JStr "example");
   ("email", JStr "example@exaroton.com");
   ("verified", JBool true);
   ("credits", JInt 42)].

Definition bad_type : @dict binary64 :=
  [("name", JInt 123);
   ("email", JStr "a");
   ("verified", JBool false);
   ("credits", JInt 100)].

Definition normal_server : @dict binary64 :=
  [("id", JStr "EwYiY9IAMtQBTb6U");
   ("name", JStr "example");
   ("address", JStr "example.exaroton.me");
   ("motd", JStr "Welcome to the server of example!");
   ("status", JInt 0);
   ("host", JNull);
   ("port", JNull);
   ("players", JDict [("max", JInt 20); ("count", JInt 0); ("list", JList [])]);
   ("software", JDict [("id", JStr "kb4p09ABvLjxzedx");
                       ("name", JStr "Vanilla");
                       ("version", JStr "1.16.5")]);
   ("shared", JBool false)].

(** [normal_server] without its [host] key. *)
Definition server_without_host : @dict binary64 :=
  filter (fun kv => negb (String.eqb (fst kv) "host")) normal_server.

(** [normal_server] with an integer for its name. *)
Definition server_bad_name : @dict binary64 :=
  map (fun kv => if String.eqb (fst kv) "name" then ("name", JInt 123) else kv)
    normal_server.

(** A configuration option declared boolean whose value is text. *)
Definition boolean_option_with_text : @dict binary64 :=
  [("key", JStr "pvp");
   ("value", JStr "true");
   ("label", JStr "PvP");
   ("type", JStr "boolean");
   ("options", JNull)].

Definition boolean_option : @dict binary64 :=
  [("key", JStr "pvp");
   ("value", JBool true);
   ("label", JStr "PvP");
   ("type", JStr "boolean");
   ("options", JNull)].

Definition client : Client.Client := {| Client._token := "token" |}.

(** What [normal_server] validates to. *)
Definition normal_server_record : Server.t :=
  Server.mk "EwYiY9IAMtQBTb6U" "example" "example.exaroton.me"
    "Welcome to the server of example!" ServerStatus.offline None None
    (ServerPlayers.mk 20 0 [])
    (Some (ServerSoftware.mk "kb4p09ABvLjxzedx" "Vanilla" "1.16.5"))
    false.

(** Envelopes. *)
Definition acknowledgement : @dict binary64 :=
  [("success", JBool true); ("error", JNull); ("data", JNull)].

Definition acknowledgement_without_data : @dict binary64 :=
  [("success", JBool true); ("error", JNull)].

Definition failure (message : string) (data : @json binary64) : @dict binary64 :=
  [("success", JBool false); ("error", JStr message); ("data", data)].

Definition failure_null_error : @dict binary64 :=
  [("success", JBool false); ("error", JNull); ("data", JNull)].

Definition failure_without_error : @dict binary64 :=
  [("success", JBool false); ("data", JNull)].

Definition success (data : @json binary64) : @dict binary64 :=
  [("success", JBool true); ("error", JNull); ("data", data)].

End Samples.

(** ** Reading the outcome of a validation *)

#[local] Open Scope list_scope.

Section ValidationFacts.
Context {N : Numeric}.

Lemma errors_ap {A B} (f : validation (A -> B)) (v : validation A) :
  errors (f <*> v) = errors f ++ errors v.
Proof.
  destruct f, v; simpl; auto using app_nil_r.
Qed.

Lemma is_valid_ap {A B} (f : validation (A -> B)) (v : validation A) :
  is_valid (f <*> v) = is_valid f && is_valid v.
Proof. destruct f, v; reflexivity. Qed.

Lemma ap_Valid_inv {A B} (f : validation (A -> B)) (v : validation A) b :
  f <*> v = Valid b -> exists g a, f = Valid g /\ v = Valid a /\ b = g a.
Proof.
  destruct f as [g|], v as [a|]; simpl; try discriminate.
  intros [= <-]. eauto.
Qed.


Lemma errors_fmap {A B} (g : A -> B) (v : validation A) :
  errors (g <$> v) = errors v.
Proof. destruct v; reflexivity. Qed.

Lemma is_valid_at_loc {A} i (v : validation A) :
  is_valid (at_loc i v) = is_valid v.
Proof. destruct v; reflexivity. Qed.

Lemma errors_at_loc {A} i (v : validation A) :
  errors (at_loc i v) = map (under i) (errors v).
Proof. destruct v; reflexivity. Qed.

Lemma proper_iff {A} (v : validation A) :
  proper v <-> (is_valid v = false -> errors v <> []).
Proof.
  unfold proper. destruct v as [a|errs]; simpl.
  - split; [discriminate | intros _; discriminate].
  - split.
    + intros H _ ->. now apply H.
    + intros H [= ->]. now apply H.
Qed.

Lemma proper_Valid {A} (a : A) : proper (Valid a).
Proof. discriminate. Qed.

Lemma proper_fail {A} t : proper (@fail A t).
Proof. discriminate. Qed.

Lemma proper_fmap {A B} (g : A -> B) v : proper v -> proper (g <$> v).
Proof.
  unfold proper. destruct v; simpl; [discriminate | congruence].
Qed.

Lemma proper_at_loc {A} i (v : validation A) : proper v -> proper (at_loc i v).
Proof.
  unfold proper. destruct v as [|[|e errs]]; simpl; try discriminate.
  congruence.
Qed.

Lemma proper_ap {A B} (f : validation (A -> B)) v :
  proper f -> proper v -> proper (f <*> v).
Proof.
  unfold proper.
  destruct f as [|[|e1 l1]], v as [|[|e2 l2]]; simpl; try discriminate;
    congruence.
Qed.

(** [required] looks the key up and validates what it finds. *)
Lemma required_get {A} k (v : validator A) d :
  required k v d =
  match get k d with
  | Some x => at_loc (Key k) (v x)
  | None => Invalid [mkError [Key k] missing]
  end.
Proof.
  induction d as [|[k' x] d IH]; simpl; [reflexivity|].
  destruct (String.eqb k k'); auto.
Qed.

Lemma get_In k (d : dict) x : get k d = Some x -> In (k, x) d.
Proof.
  induction d as [|[k' y] d IH]; simpl; [discriminate|].
  destruct (String.eqb_spec k k') as [<-|_].
  - intros [= ->]. now left.
  - right. auto.
Qed.

Lemma is_valid_required {A} k (v : validator A) d :
  is_valid (required k v d) = negb (violates (k, accepts v) d).
Proof.
  rewrite required_get. unfold violates, accepts. simpl.
  destruct (get k d); simpl; [|reflexivity].
  now rewrite is_valid_at_loc, negb_involutive.
Qed.

Lemma proper_required {A} k (v : validator A) d :
  (forall x, proper (v x)) -> proper (required k v d).
Proof.
  intros Hv. rewrite required_get.
  destruct (get k d); [apply proper_at_loc, Hv | discriminate].
Qed.

Lemma cites_app k l1 l2 : cites k (l1 ++ l2) = cites k l1 || cites k l2.
Proof. apply existsb_app. Qed.

Lemma cites_under k k' errs :
  cites k (map (under (Key k')) errs) =
  String.eqb k k' && negb (match errs with [] => true | _ => false end).
Proof.
  induction errs as [|e errs IH]; simpl.
  - now rewrite andb_false_r.
  - destruct (String.eqb k k'); simpl; [reflexivity|].
    rewrite IH. reflexivity.
Qed.

Lemma cites_required {A} k k' (v : validator A) d :
  (forall x, proper (v x)) ->
  cites k (errors (required k' v d)) =
  String.eqb k k' && violates (k', accepts v) d.
Proof.
  intros Hv. rewrite required_get. unfold violates, accepts. simpl.
  destruct (get k' d) as [x|]; simpl.
  - rewrite errors_at_loc, cites_under.
    specialize (Hv x). unfold proper in Hv.
    destruct (v x) as [a|[|e errs]]; simpl; try reflexivity.
    exfalso. now apply Hv.
  - now rewrite orb_false_r, andb_true_r.
Qed.

Lemma located_required {A} k (v : validator A) d :
  Forall (fun e => hd_error (loc e) = Some (Key k)) (errors (required k v d)).
Proof.
  rewrite required_get. destruct (get k d) as [x|]; simpl.
  - rewrite errors_at_loc. apply Forall_forall. intros e He.
    apply in_map_iff in He. destruct He as [e' [<- _]]. reflexivity.
  - repeat constructor.
Qed.

End ValidationFacts.

(** ** The status enumeration *)

Section ServerStatusFacts.
Context {N : Numeric}.

Lemma of_value_value s : ServerStatus.of_value (ServerStatus.value s) = Some s.
Proof. destruct s; reflexivity. Qed.

Lemma of_value_Some z s :
  ServerStatus.of_value z = Some s -> ServerStatus.value s = z.
Proof.
  unfold ServerStatus.of_value. intros H.
  apply find_some in H. destruct H as [_ H]. now apply Z.eqb_eq.
Qed.

(** C4: decoding a status.  An integer is mapped to the member declared
    with that value: 0 to 8 and 10 give offline, online, starting,
    stopping, restarting, saving, loading, crashed, pending and
    preparing; every other integer, 9 among them, fails validation with
    an [enum] error. *)
Theorem C4_status_decoding (z : Z) :
  ServerStatus.validate (JInt z) =
  match z with
  | 0 => Valid ServerStatus.offline
  | 1 => Valid ServerStatus.online
  | 2 => Valid ServerStatus.starting
  | 3 => Valid ServerStatus.stopping
  | 4 => Valid ServerStatus.restarting
  | 5 => Valid ServerStatus.saving
  | 6 => Valid ServerStatus.loading
  | 7 => Valid ServerStatus.crashed
  | 8 => Valid ServerStatus.pending
  | 10 => Valid ServerStatus.preparing
  | _ => Invalid [mkError [] enum]
  end.
Proof.
  destruct z as [|p|p]; try reflexivity.
  do 5 (try (destruct p as [p|p|]; try reflexivity)).
Qed.

End ServerStatusFacts.

(** ** Every validator says what failed *)

Create HintDb proper discriminated.

Section ProperValidators.
Context {N : Numeric}.

(** Induction over parsed JSON, with the hypothesis for the items of a
    list and for the values of a mapping. *)
Lemma json_ind (P : json -> Prop) :
  P JNull ->
  (forall b, P (JBool b)) ->
  (forall z, P (JInt z)) ->
  (forall f, P (JFloat f)) ->
  (forall s, P (JStr s)) ->
  (forall l, Forall P l -> P (JList l)) ->
  (forall d, Forall (fun kv => P (snd kv)) d -> P (JDict d)) ->
  forall x, P x.
Proof.
  intros HN HB HI HF HS HL HD.
  fix IH 1. intros [ |b|z|f|s|l|d].
  - exact HN.
  - apply HB.
  - apply HI.
  - apply HF.
  - apply HS.
  - apply HL. revert l. fix IHl 1. intros [|y l]; constructor.
    + apply IH.
    + apply IHl.
  - apply HD. revert d. fix IHd 1. intros [|[k y] d]; constructor.
    + apply IH.
    + apply IHd.
Qed.

Lemma proper_str_v strict x : proper (str_v strict x).
Proof. destruct x; discriminate. Qed.

Lemma proper_int_v strict x : proper (int_v strict x).
Proof.
  destruct x, strict; simpl; try discriminate.
  - destruct (float_as_int f); discriminate.
  - destruct (str_as_int s); discriminate.
Qed.

Lemma proper_float_v strict x : proper (float_v strict x).
Proof.
  destruct x, strict; simpl; try discriminate;
    match goal with |- proper (match ?c with _ => _ end) => destruct c end;
    discriminate.
Qed.

Lemma proper_bool_v strict x : proper (bool_v strict x).
Proof.
  destruct x, strict; simpl; try discriminate.
  - destruct (int_as_bool z); discriminate.
  - destruct (float_as_int f) as [z|]; [|discriminate].
    destruct (int_as_bool z); discriminate.
  - destruct (str_as_bool s); discriminate.
Qed.

Lemma proper_dict_v strict x : proper (dict_v strict x).
Proof. destruct x; discriminate. Qed.

Lemma proper_any_list_v strict x : proper (any_list_v strict x).
Proof. destruct x; discriminate. Qed.

Lemma proper_none_v strict x : proper (none_v strict x).
Proof. destruct x; discriminate. Qed.

Lemma proper_status x : proper (ServerStatus.validate x).
Proof.
  assert (H : forall z, proper (ServerStatus.of_value_v z)).
  { intros z. unfold ServerStatus.of_value_v.
    destruct (ServerStatus.of_value z); discriminate. }
  destruct x; simpl; auto; try discriminate.
  destruct (float_as_int f); [apply H | discriminate].
Qed.

Lemma proper_nullable {A} (v : validator A) x :
  proper (v x) -> proper (nullable v x).
Proof.
  intros H. destruct x; simpl; try discriminate; now apply proper_fmap.
Qed.

Lemma proper_items {A} (v : validator A) l :
  Forall (fun x => proper (v x)) l -> forall i, proper (items v i l).
Proof.
  induction 1 as [|x l Hx _ IH]; intros i; simpl; [discriminate|].
  apply proper_ap; [|apply IH].
  apply proper_fmap, proper_at_loc, Hx.
Qed.

Lemma proper_list_of {A} (v : validator A) x :
  (forall y, proper (v y)) -> proper (list_of v x).
Proof.
  intros H. destruct x; simpl; try discriminate.
  apply proper_items, Forall_forall. auto.
Qed.

Lemma proper_model_v {A} (validate : dict -> validation A) x :
  (forall d, proper (validate d)) -> proper (model_v validate x).
Proof. intros H. destruct x; simpl; auto; discriminate. Qed.

Lemma first_valid_None {A} (l : list (validation A)) :
  first_valid l = None -> Forall (fun v => is_valid v = false) l.
Proof.
  induction l as [|[a|errs] l IH]; simpl; intros H; try discriminate;
    constructor; auto.
Qed.

Lemma proper_union {A} (members : list (string * (bool -> validator A))) x :
  members <> [] ->
  (forall m, In m members -> proper (snd m false x)) ->
  proper (union members x).
Proof.
  intros Hne Hm. unfold union, validator in *.
  destruct (first_valid (map (fun m => snd m true x) members));
    [discriminate|].
  destruct (first_valid (map (fun m => snd m false x) members)) eqn:E;
    [discriminate|].
  apply first_valid_None in E.
  destruct members as [|m members]; [contradiction|].
  simpl in E. apply Forall_inv in E.
  specialize (Hm m (or_introl eq_refl)). unfold proper in *.
  simpl. destruct (snd m false x) as [a|[|e errs]]; simpl in *.
  - discriminate E.
  - exfalso. now apply Hm.
  - discriminate.
Qed.

Lemma proper_scalar_v x : proper (ConfigOption.scalar_v x).
Proof.
  apply proper_union; [discriminate|].
  intros m [<-|[<-|[<-|[<-|[]]]]]; simpl; apply proper_fmap;
    auto using proper_str_v, proper_int_v, proper_float_v, proper_bool_v.
Qed.

Lemma proper_data_v x : proper (Response.data_v x).
Proof.
  unfold Response.data_v. apply proper_fmap, proper_nullable, proper_union;
    [discriminate|].
  intros m [<-|[<-|[<-|[<-|[]]]]]; simpl;
    auto using proper_fmap, proper_str_v, proper_dict_v, proper_any_list_v,
      proper_none_v.
Qed.

End ProperValidators.

#[export] Hint Resolve proper_Valid proper_fail proper_fmap proper_at_loc
  proper_ap proper_required proper_str_v proper_int_v proper_float_v
  proper_bool_v proper_status proper_nullable proper_list_of proper_model_v
  proper_scalar_v proper_data_v : proper.

(** ** The models validate all or nothing *)

Arguments violates : simpl never.
Arguments accepts : simpl never.

Ltac proper_chain :=
  repeat first [ apply proper_Valid
               | apply proper_ap
               | apply proper_required; intros ];
  auto 6 with proper.

(** The errors of one declared field are located under that field. *)
Ltac located_field :=
  match goal with
  | |- Forall _ (errors (Valid _)) => apply Forall_nil
  | |- Forall _ (errors (required ?k ?v ?d)) =>
      eapply Forall_impl; [|apply (located_required k v d)];
      let e := fresh "e" in
      let He := fresh "He" in
      intros e He; exists (k, accepts v); split; [simpl; tauto | exact He]
  end.

Ltac cited_field :=
  simpl fst;
  rewrite ?errors_ap, ?cites_app;
  rewrite ?cites_required by auto 6 with proper;
  simpl; btauto.

Ltac all_or_nothing_chain :=
  let d := fresh "d" in
  intros d; split; [|split; [|split]];
  [ rewrite ?is_valid_ap, ?is_valid_required; simpl; btauto
  | apply proper_iff; proper_chain
  | let f := fresh "f" in
    let Hin := fresh "Hin" in
    intros f Hin; simpl in Hin;
    repeat (destruct Hin as [<-|Hin]; [cited_field|]);
    contradiction
  | rewrite ?errors_ap; repeat (apply Forall_app; split); located_field ].

Section ModelFacts.
Context {N : Numeric} {G : RecursionGuard}.


Lemma proper_ServerPlayers d : proper (ServerPlayers.validate d).
Proof. unfold ServerPlayers.validate. proper_chain. Qed.

Lemma proper_ServerSoftware d : proper (ServerSoftware.validate d).
Proof. unfold ServerSoftware.validate. proper_chain. Qed.

Hint Resolve proper_ServerPlayers proper_ServerSoftware : proper.






Lemma Response_all_or_nothing :
  all_or_nothing Response.validate Response.fields.
Proof. unfold Response.validate, Response.fields. all_or_nothing_chain. Qed.

Lemma proper_guarded {A} active (v : validator A) x :
  proper (v x) -> proper (guarded active v x).
Proof.
  intros H. unfold guarded.
  destruct (Nat.ltb active recursion_guard_limit); [exact H | discriminate].
Qed.

Lemma proper_PathInfo_nested x :
  forall active,
    proper (PathInfo.validate_nested active x)
    /\ proper (nullable (list_of (guarded active
                                   (PathInfo.validate_nested (S active)))) x).
Proof.
  induction x as [ | | | | |l IH|d IH] using json_ind; intros active;
    try (split; discriminate).
  - split; [discriminate|].
    apply proper_fmap. simpl. apply proper_items.
    revert IH. apply Forall_impl. intros y Hy. apply proper_guarded, Hy.
  - split; [|discriminate].
    cbn [PathInfo.validate_nested]. apply proper_ap; [proper_chain|].
    rewrite required_get.
    destruct (get "children" d) as [y|] eqn:E; [|discriminate].
    apply proper_at_loc.
    apply get_In in E.
    rewrite Forall_forall in IH. now destruct (IH _ E active).
Qed.

Lemma proper_PathInfo_children active x :
  proper (nullable (list_of (guarded active
                               (PathInfo.validate_nested (S active)))) x).
Proof. apply proper_PathInfo_nested. Qed.

Hint Resolve proper_PathInfo_children : proper.


End ModelFacts.

(** ** What a validated record holds *)

Section RecordFacts.
Context {N : Numeric} {G : RecursionGuard}.

Lemma fails_with_ap_l {A B} e (f : validation (A -> B)) v :
  fails_with e f -> fails_with e (f <*> v).
Proof.
  intros (errs & -> & Hin). destruct v as [a|errs']; simpl.
  - now exists errs.
  - exists (errs ++ errs'). split; [reflexivity|]. apply in_or_app. now left.
Qed.

Lemma fails_with_ap_r {A B} e (f : validation (A -> B)) v :
  fails_with e v -> fails_with e (f <*> v).
Proof.
  intros (errs & -> & Hin). destruct f as [g|errs']; simpl.
  - now exists errs.
  - exists (errs' ++ errs). split; [reflexivity|]. apply in_or_app. now right.
Qed.

Lemma required_missing {A} k (v : validator A) d :
  get k d = None -> fails_with (mkError [Key k] missing) (required k v d).
Proof.
  intros E. rewrite required_get, E.
  eexists. split; [reflexivity | now left].
Qed.

Lemma required_null {A} k (v : validator A) d o :
  get k d = Some JNull -> required k (nullable v) d = Valid o -> o = None.
Proof.
  intros E. rewrite required_get, E. simpl. now intros [= <-].
Qed.

Lemma items_map {A} (v : validator A) (w : A -> json) l :
  Forall (fun a => v (w a) = Valid a) l ->
  forall i, items v i (map w l) = Valid l.
Proof.
  induction 1 as [|a l Ha _ IH]; intros i; simpl; [reflexivity|].
  now rewrite Ha, IH.
Qed.


Lemma scalar_v_to_json x :
  ConfigOption.scalar_v (ConfigOption.to_json x) = Valid x.
Proof. destruct x; reflexivity. Qed.












End RecordFacts.

(** From [chain = Valid r] to one equation per field. *)
Ltac invert_valid H :=
  repeat (apply ap_Valid_inv in H;
          let g := fresh "g" in
          let a := fresh "a" in
          let Ha := fresh "Ha" in
          let Hr := fresh "Hr" in
          destruct H as (g & a & H & Ha & Hr));
  injection H as <-; subst.

Ltac missing_field E :=
  repeat first [ apply fails_with_ap_r; apply required_missing; exact E
               | apply fails_with_ap_l ].

(** ** The specification of the models *)

Section ModelSpecification.
Context {N : Numeric} {G : RecursionGuard}.

(** C5, as the code has it: [ConfigOption.value] is validated against
    [Union[str, int, float, bool]] alone and the sibling [type] is a
    plain string that is not consulted.  Whatever the declared type, a
    string, an integer, a float or a boolean validates and keeps its
    kind: [true] stays a boolean, the text stays text (also under the
    type boolean) and an integer is not widened to a float. *)
Theorem C5_value_keeps_its_kind (d : dict) (k l t : string)
  (x : ConfigOption.scalar) :
  get "key" d = Some (JStr k) ->
  get "value" d = Some (ConfigOption.to_json x) ->
  get "label" d = Some (JStr l) ->
  get "type" d = Some (JStr t) ->
  get "options" d = Some JNull ->
  ConfigOption.validate d = Valid (ConfigOption.mk k x l t None).
Proof.
  intros Hk Hv Hl Ht Ho. unfold ConfigOption.validate.
  rewrite !required_get, Hk, Hv, Hl, Ht, Ho, scalar_v_to_json.
  reflexivity.
Qed.


(** C8, as the code has it: an optional field ([Server.host],
    [Server.port], [Server.software], [PathInfo.children],
    [ConfigOption.options]) has no default value.  Under an explicit
    [null] the validated record holds [None] in it, never an empty or
    zero value; a mapping without the key is not validated: the error
    list holds a [missing] error for that field. *)
Theorem C8_null_is_none_missing_is_an_error (d : dict) :
  (get "host" d = Some JNull ->
     forall r, Server.validate d = Valid r -> Server.host r = None)
  /\ (get "port" d = Some JNull ->
     forall r, Server.validate d = Valid r -> Server.port r = None)
  /\ (get "software" d = Some JNull ->
     forall r, Server.validate d = Valid r -> Server.software r = None)
  /\ (get "children" d = Some JNull ->
     forall r, PathInfo.validate d = Valid r -> PathInfo.children r = None)
  /\ (get "options" d = Some JNull ->
     forall r, ConfigOption.validate d = Valid r ->
               ConfigOption.options r = None)
  /\ (get "host" d = None ->
     fails_with (mkError [Key "host"] missing) (Server.validate d))
  /\ (get "port" d = None ->
     fails_with (mkError [Key "port"] missing) (Server.validate d))
  /\ (get "software" d = None ->
     fails_with (mkError [Key "software"] missing) (Server.validate d))
  /\ (get "children" d = None ->
     fails_with (mkError [Key "children"] missing) (PathInfo.validate d))
  /\ (get "options" d = None ->
     fails_with (mkError [Key "options"] missing) (ConfigOption.validate d)).
Proof.
  unfold Server.validate, PathInfo.validate, PathInfo.validate_value,
    ConfigOption.validate.
  cbn [PathInfo.validate_nested].
  repeat split; intros E;
    try (intros r H; invert_valid H; simpl;
         eauto using required_null);
    missing_field E.
Qed.


End ModelSpecification.

(** ** The envelope *)

Section EnvelopeFacts.
Context {N : Numeric}.

Lemma data_v_payload x :
  Response.data_v x = if Client.is_payload x then Valid x
                      else Response.data_v x.
Proof. destruct x; reflexivity. Qed.

Lemma data_v_Valid x y :
  Response.data_v x = Valid y -> y = x /\ Client.is_payload x = true.
Proof.
  destruct x; simpl; unfold Response.data_v; simpl;
    try discriminate; intros [= <-]; auto.
Qed.

Lemma construct_Return {A} (validate : dict -> validation A) d a :
  Client.construct validate (JDict d) = Client.Return a ->
  validate d = Valid a.
Proof.
  simpl. destruct (validate d); [|discriminate]. now intros [= ->].
Qed.

Lemma required_Valid {A} k (v : validator A) d a :
  required k v d = Valid a -> exists x, get k d = Some x /\ v x = Valid a.
Proof.
  rewrite required_get. destruct (get k d) as [x|]; [|discriminate].
  destruct (v x) eqn:E; simpl; [|discriminate].
  intros [= <-]. eauto.
Qed.

(** A validated [Response] holds what the body has under its three
    keys: the error as it is, [None] or a string, and the data as it
    is. *)
Lemma Response_validate_inv d r :
  Response.validate d = Valid r ->
  (exists x, get "success" d = Some x
             /\ bool_v false x = Valid (Response.success r))
  /\ (get "error" d = Some JNull /\ Response.error r = None
      \/ exists m, get "error" d = Some (JStr m)
                   /\ Response.error r = Some m)
  /\ get "data" d = Some (Response.data r)
  /\ Client.is_payload (Response.data r) = true.
Proof.
  intros H. unfold Response.validate in H. invert_valid H. simpl.
  apply required_Valid in Ha, Ha0, Ha1.
  destruct Ha as (x & Ex & Hx), Ha0 as (e & Ee & He), Ha1 as (s & Es & Hs).
  apply data_v_Valid in Hx. destruct Hx as [-> Hp].
  split; [eauto|]. split; [|auto].
  destruct e; simpl in He; try discriminate; injection He as <-; eauto.
Qed.

Lemma Response_validate_intro d b e x :
  get "success" d = Some (JBool b) ->
  get "error" d = Some e ->
  get "data" d = Some x ->
  Client.is_payload x = true ->
  Response.validate d =
  match e with
  | JNull => Valid (Response.mk b None x)
  | JStr m => Valid (Response.mk b (Some m) x)
  | _ => Invalid [mkError [Key "error"] string_type]
  end.
Proof.
  intros Hs He Hx Hp. unfold Response.validate.
  rewrite !required_get, Hs, He, Hx, data_v_payload, Hp.
  destruct e; reflexivity.
Qed.

Lemma Response_validate_scalar_data d x :
  get "data" d = Some x ->
  Client.is_payload x = false ->
  exists errs, Response.validate d = Invalid errs /\ cites "data" errs = true.
Proof.
  intros Hd Hp.
  destruct (Response_all_or_nothing d) as (Hv & _ & Hc & _).
  specialize (Hc ("data", accepts Response.data_v)). simpl fst in Hc.
  assert (Hx : violates ("data", accepts Response.data_v) d = true).
  { unfold violates, accepts. cbn [fst snd]. rewrite Hd.
    destruct x; try discriminate Hp; reflexivity. }
  rewrite Hx in Hc.
  assert (Hi : is_valid (Response.validate d) = false).
  { rewrite Hv. cbn [forallb Response.fields]. rewrite Hx. simpl.
    now rewrite !andb_false_r. }
  destruct (Response.validate d) as [r|errs]; [discriminate|].
  exists errs. split; [reflexivity|]. apply Hc. simpl. tauto.
Qed.

Lemma Response_validate_missing k d :
  In k ["success"; "error"; "data"] ->
  get k d = None ->
  fails_with (mkError [Key k] missing) (Response.validate d).
Proof.
  unfold Response.validate.
  intros [<-|[<-|[<-|[]]]] E; missing_field E.
Qed.

End EnvelopeFacts.

(** ** The specification of decoding *)

Section DecodingSpecification.
Context {N : Numeric} {G : RecursionGuard}.

Import Client.

(** The GET decoder returns the data of a successful envelope as it
    is. *)
Lemma get_data_identity self raw r route :
  construct Response.validate raw = Return r ->
  Response.success r = true ->
  _get_data (replies raw) self route = Return (Response.data r).
Proof.
  intros H Hs. unfold _get_data, replies, bind. now rewrite H, Hs.
Qed.

(** So do the decoders of the other verbs, unless the data is [None]. *)
Lemma object_decoders_identity self raw r route object :
  construct Response.validate raw = Return r ->
  Response.success r = true ->
  is_none (Response.data r) = false ->
  _post_object (replies raw) self route object = Return (Response.data r)
  /\ _put_object (replies raw) self route object = Return (Response.data r)
  /\ _delete_object (replies raw) self route object
     = Return (Response.data r).
Proof.
  intros H Hs Hn.
  unfold _post_object, _put_object, _delete_object, replies, bind.
  now rewrite H, Hs, Hn.
Qed.

(** C1, at the input where the code departs from it: the service
    acknowledges with [success: true] and [data: null].  [start] takes
    the acknowledgement through the GET decoder and returns [None], as
    its final assertion allows; with [use_own_credits] it takes the same
    acknowledgement through the POST decoder, whose own assertion
    rejects a [None] payload, and so does [execute_command]. *)
Theorem C1_object_decoders_reject_none (self : Client) (server_id command : string) :
  start (replies (envelope true JNull JNull)) self server_id false
    = Return JNull
  /\ start (replies (envelope true JNull JNull)) self server_id true
     = Raise AssertionError
  /\ execute_command (replies (envelope true JNull JNull)) self server_id command
     = Raise AssertionError
  /\ (forall route object,
        _get_data (replies (envelope true JNull JNull)) self route
          = Return JNull
        /\ _post_object (replies (envelope true JNull JNull)) self route object
           = Raise AssertionError
        /\ _put_object (replies (envelope true JNull JNull)) self route object
           = Raise AssertionError
        /\ _delete_object (replies (envelope true JNull JNull)) self route object
           = Raise AssertionError).
Proof. repeat split. Qed.

(** C2, as the code has it: when a body is a valid [Response] that says
    [success: false], each of the four decoders raises [ExaError] with
    the body's error as its argument, [None] or the string as it is,
    whichever of an object, a list, a string or [null] the data is.  The
    data is not ignored, though: it has to be there and to be one of
    these.  A body whose data is a number or a boolean, or that has no
    [data] key, is rejected when the [Response] is built, and each
    decoder raises [ValidationError] instead of [ExaError]. *)
Theorem C2_failure_raises_ExaError_if_the_envelope_is_valid
  self (d : dict) route object :
  let all_raise (e : exn) :=
    _get_data (replies (JDict d)) self route = Raise e
    /\ _post_object (replies (JDict d)) self route object = Raise e
    /\ _put_object (replies (JDict d)) self route object = Raise e
    /\ _delete_object (replies (JDict d)) self route object = Raise e in
  (forall r,
     Response.validate d = Valid r ->
     Response.success r = false ->
     all_raise (ExaError (Response.error r))
     /\ (get "error" d = Some JNull /\ Response.error r = None
         \/ exists m, get "error" d = Some (JStr m)
                      /\ Response.error r = Some m)
     /\ get "data" d = Some (Response.data r)
     /\ is_payload (Response.data r) = true)
  /\ (forall x,
        get "data" d = Some x ->
        is_payload x = false ->
        exists errs,
          cites "data" errs = true /\ all_raise (ValidationError errs))
  /\ (get "data" d = None ->
      exists errs,
        In (mkError [Key "data"] missing) errs
        /\ all_raise (ValidationError errs)).
Proof.
  cbv zeta.
  unfold _get_data, _post_object, _put_object, _delete_object, replies, bind,
    construct.
  split; [|split].
  - intros r H Hs. rewrite H, Hs. split; [repeat split|].
    apply Response_validate_inv in H. tauto.
  - intros x Hd Hp.
    destruct (Response_validate_scalar_data d x Hd Hp) as (errs & E & Hc).
    exists errs. rewrite E. split; [exact Hc | repeat split].
  - intros Hd.
    destruct (Response_validate_missing "data" d) as (errs & E & Hin);
      [simpl; tauto | exact Hd |].
    exists errs. rewrite E. split; [exact Hin | repeat split].
Qed.

Ltac run_call H Hs :=
  unfold account, servers, server, log, share_log, ram, set_ram, motd,
    set_motd, start, stop, restart, execute_command, enabled_playerlists,
    playerlist_content, add_to_playerlist, remove_from_playerlist, path_info,
    get_config_options, set_config_options,
    _get_data, _post_object, _put_object, _delete_object, replies, bind;
  rewrite ?H, ?Hs.


Lemma construct_missing k d :
  In k ["success"; "error"; "data"] ->
  get k d = None ->
  exists errs,
    construct Response.validate (JDict d) = Raise (ValidationError errs)
    /\ In (mkError [Key k] missing) errs.
Proof.
  intros Hk E.
  destruct (Response_validate_missing k d Hk E) as (errs & Hv & Hin).
  exists errs. simpl. now rewrite Hv.
Qed.

Lemma construct_envelope d b x :
  get "success" d = Some (JBool b) ->
  get "error" d = Some JNull ->
  get "data" d = Some x ->
  is_payload x = true ->
  construct Response.validate (JDict d) = Return (Response.mk b None x).
Proof.
  intros Hs He Hx Hp. simpl.
  now rewrite (Response_validate_intro d b JNull x Hs He Hx Hp).
Qed.

(** C7, as the code has it: for [stop], [restart] and [start] without
    [use_own_credits], which use the GET decoder, an envelope with
    [success: true] and an explicit [data: null] is decoded and the
    operation returns [None].  The [data] key has to be there: an
    envelope without it is rejected when the [Response] is built, with a
    [missing] error for [data], by every operation. *)
Theorem C7_null_acknowledgement self (d : dict) (server_id : string) :
  get "success" d = Some (JBool true) ->
  get "error" d = Some JNull ->
  (get "data" d = Some JNull ->
     stop (replies (JDict d)) self server_id = Return JNull
     /\ restart (replies (JDict d)) self server_id = Return JNull
     /\ start (replies (JDict d)) self server_id false = Return JNull)
  /\ (get "data" d = None ->
     exists errs,
       In (mkError [Key "data"] missing) errs
       /\ stop (replies (JDict d)) self server_id
          = Raise (ValidationError errs)
       /\ restart (replies (JDict d)) self server_id
          = Raise (ValidationError errs)
       /\ (forall b, start (replies (JDict d)) self server_id b
                     = Raise (ValidationError errs))).
Proof.
  intros Hs He. split; intros Hd.
  - pose proof (construct_envelope d true JNull Hs He Hd eq_refl) as H.
    repeat split; run_call H Hs; reflexivity.
  - destruct (construct_missing "data" d) as (errs & H & Hin);
      [simpl; tauto | exact Hd |].
    exists errs. split; [exact Hin|].
    repeat split; intros; run_call H Hs;
      try match goal with b : bool |- _ => destruct b end;
      rewrite ?H; reflexivity.
Qed.

(** C10, as the code has it: nothing ties [error] to [success].  An
    envelope with [success: false] and an explicit [error: null] is a
    valid [Response], and each decoder raises [ExaError] with [None] as
    its argument.  The [error] key has to be there: an envelope without
    it is rejected when the [Response] is built, with a [missing] error
    for [error], and no [ExaError] is raised. *)
Theorem C10_null_error self (d : dict) (x : json) (route : string)
  (object : dict) :
  get "success" d = Some (JBool false) ->
  get "data" d = Some x ->
  is_payload x = true ->
  (get "error" d = Some JNull ->
     Response.validate d = Valid (Response.mk false None x)
     /\ _get_data (replies (JDict d)) self route = Raise (ExaError None)
     /\ _post_object (replies (JDict d)) self route object
        = Raise (ExaError None)
     /\ _put_object (replies (JDict d)) self route object
        = Raise (ExaError None)
     /\ _delete_object (replies (JDict d)) self route object
        = Raise (ExaError None))
  /\ (get "error" d = None ->
     exists errs,
       In (mkError [Key "error"] missing) errs
       /\ Response.validate d = Invalid errs
       /\ _get_data (replies (JDict d)) self route
          = Raise (ValidationError errs)
       /\ _post_object (replies (JDict d)) self route object
          = Raise (ValidationError errs)
       /\ _put_object (replies (JDict d)) self route object
          = Raise (ValidationError errs)
       /\ _delete_object (replies (JDict d)) self route object
          = Raise (ValidationError errs)).
Proof.
  intros Hs Hx Hp. split; intros He.
  - pose proof (Response_validate_intro d false JNull x Hs He Hx Hp) as Hv.
    split; [exact Hv|].
    unfold _get_data, _post_object, _put_object, _delete_object, replies,
      bind, construct.
    rewrite Hv. repeat split.
  - destruct (Response_validate_missing "error" d) as (errs & Hv & Hin);
      [simpl; tauto | exact He |].
    exists errs. split; [exact Hin|]. split; [exact Hv|].
    unfold _get_data, _post_object, _put_object, _delete_object, replies,
      bind, construct.
    rewrite Hv. repeat split.
Qed.

End DecodingSpecification.

(** ** The statements at the sample payloads *)

#[local] Existing Instance pydantic_core.

(** [test_account] and [test_server] of [tests/test_models.py]. *)
Example test_account :
  is_valid (Account.validate Samples.normal_account) = true
  /\ Account.validate Samples.bad_type
     = Invalid [mkError [Key "name"] string_type].
Proof. split; reflexivity. Qed.

Example test_server :
  Server.validate Samples.normal_server = Valid Samples.normal_server_record.
Proof. reflexivity. Qed.

(** C2 as the specification words it does not hold: a failure whose
    data is a number is not decoded, and no [ExaError] is raised. *)
Lemma C2_number_data_is_rejected :
  (exists errs,
     cites "data" errs = true
     /\ Client._get_data
          (Client.replies (JDict (Samples.failure "Not found" (JInt 404))))
          Samples.client "servers"
        = Client.Raise (Client.ValidationError errs))
  /\ Client._get_data
       (Client.replies (JDict (Samples.failure "Not found" (JInt 404))))
       Samples.client "servers"
     <> Client.Raise (Client.ExaError (Some "Not found")).
Proof.
  split.
  - eexists. split; [|reflexivity]. reflexivity.
  - discriminate.
Qed.

(** C2 at a failure whose data is a list. *)
Lemma C2_witness :
  Response.validate (Samples.failure "Server is offline" (JList [JInt 1]))
  = Valid (Response.mk false (Some "Server is offline") (JList [JInt 1]))
  /\ Client._get_data
       (Client.replies (JDict (Samples.failure "Server is offline" (JList [JInt 1]))))
       Samples.client "servers"
     = Client.Raise (Client.ExaError (Some "Server is offline")).
Proof.
  split; [reflexivity|].
  exact (proj1 (proj1 (proj1
           (@C2_failure_raises_ExaError_if_the_envelope_is_valid binary64
              Samples.client
              (Samples.failure "Server is offline" (JList [JInt 1]))
              "servers" [])
           (Response.mk false (Some "Server is offline") (JList [JInt 1]))
           eq_refl eq_refl))).
Defined.


(** C5 as the specification words it does not hold: text under the
    declared type boolean is validated, as text. *)
Lemma C5_text_under_boolean_validates :
  ConfigOption.validate Samples.boolean_option_with_text
  = Valid (ConfigOption.mk "pvp" (ConfigOption.Str "true") "PvP" "boolean" None).
Proof. reflexivity. Qed.

(** C5 at a boolean under the declared type boolean. *)
Lemma C5_witness :
  get "value" Samples.boolean_option = Some (JBool true)
  /\ ConfigOption.validate Samples.boolean_option
     = Valid (ConfigOption.mk "pvp" (ConfigOption.Bool true) "PvP" "boolean" None).
Proof.
  split; [reflexivity|].
  exact (@C5_value_keeps_its_kind binary64 Samples.boolean_option
           "pvp" "PvP" "boolean" (ConfigOption.Bool true)
           eq_refl eq_refl eq_refl eq_refl eq_refl).
Defined.

(** C7 as the specification words it does not hold: an
    acknowledgement without a [data] key is not decoded. *)
Lemma C7_absent_data_is_rejected :
  Client.stop (Client.replies (JDict Samples.acknowledgement_without_data))
    Samples.client "EwYiY9IAMtQBTb6U"
  = Client.Raise (Client.ValidationError [mkError [Key "data"] missing]).
Proof. reflexivity. Qed.

(** C7 at the acknowledgement with [data: null]. *)
Lemma C7_witness :
  get "data" Samples.acknowledgement = Some JNull
  /\ Client.stop (Client.replies (JDict Samples.acknowledgement))
       Samples.client "EwYiY9IAMtQBTb6U"
     = Client.Return JNull.
Proof.
  split; [reflexivity|].
  exact (proj1 (proj1 (@C7_null_acknowledgement binary64 Samples.client
                         Samples.acknowledgement "EwYiY9IAMtQBTb6U"
                         eq_refl eq_refl) eq_refl)).
Defined.

(** C8 as the specification words it does not hold: the server of the
    test validates with [host: null] and does not without the key. *)
Lemma C8_missing_host_differs_from_null :
  Server.validate Samples.normal_server = Valid Samples.normal_server_record
  /\ Server.validate Samples.server_without_host
     = Invalid [mkError [Key "host"] missing]
  /\ Server.validate Samples.server_without_host
     <> Server.validate Samples.normal_server.
Proof. repeat split. discriminate. Qed.

(** C8 at the server of the test, with and without its [host]. *)
Lemma C8_witness :
  (get "host" Samples.normal_server = Some JNull
   /\ Server.host Samples.normal_server_record = None)
  /\ (get "host" Samples.server_without_host = None
      /\ fails_with (mkError [Key "host"] missing)
           (Server.validate Samples.server_without_host)).
Proof.
  split; (split; [reflexivity|]).
  - exact (proj1 (@C8_null_is_none_missing_is_an_error binary64 pydantic_core
                    Samples.normal_server)
             eq_refl Samples.normal_server_record eq_refl).
  - exact (proj1 (proj2 (proj2 (proj2 (proj2 (proj2
             (@C8_null_is_none_missing_is_an_error binary64 pydantic_core
                Samples.server_without_host)))))) eq_refl).
Defined.



(** C10 as the specification words it does not hold: a failure
    without an [error] key is not a valid [Response]. *)
Lemma C10_absent_error_is_rejected :
  Response.validate Samples.failure_without_error
  = Invalid [mkError [Key "error"] missing]
  /\ Client._get_data (Client.replies (JDict Samples.failure_without_error))
       Samples.client "servers"
     = Client.Raise (Client.ValidationError [mkError [Key "error"] missing]).
Proof. split; reflexivity. Qed.

(** C10 at a failure with [error: null]. *)
Lemma C10_witness :
  get "error" Samples.failure_null_error = Some JNull
  /\ Client._get_data (Client.replies (JDict Samples.failure_null_error))
       Samples.client "servers"
     = Client.Raise (Client.ExaError None).
Proof.
  split; [reflexivity|].
  exact (proj1 (proj2 (proj1 (@C10_null_error binary64 Samples.client
                                Samples.failure_null_error JNull "servers" []
                                eq_refl eq_refl eq_refl) eq_refl))).
Defined.

(** ** Further properties of the models *)

Ltac reads_only_chain :=
  let d1 := fresh "d1" in
  let d2 := fresh "d2" in
  let H := fresh "H" in
  intros d1 d2 H; rewrite !required_get;
  repeat match goal with
         | |- context [get ?k d1] =>
             let E := fresh "E" in
             assert (E : get k d1 = get k d2)
               by (eapply (H (k, _)); simpl;
                   repeat first [left; reflexivity | right]);
             rewrite E; clear E
         end;
  reflexivity.

Section ModelProperties.
Context {N : Numeric} {G : RecursionGuard}.

Lemma Account_reads_only : reads_only Account.validate Account.fields.
Proof. unfold Account.validate. reads_only_chain. Qed.

Lemma ServerPlayers_reads_only :
  reads_only ServerPlayers.validate ServerPlayers.fields.
Proof. unfold ServerPlayers.validate. reads_only_chain. Qed.

Lemma ServerSoftware_reads_only :
  reads_only ServerSoftware.validate ServerSoftware.fields.
Proof. unfold ServerSoftware.validate. reads_only_chain. Qed.

Lemma Server_reads_only : reads_only Server.validate Server.fields.
Proof. unfold Server.validate. reads_only_chain. Qed.

Lemma LogUpload_reads_only : reads_only LogUpload.validate LogUpload.fields.
Proof. unfold LogUpload.validate. reads_only_chain. Qed.

Lemma PathInfo_reads_only : reads_only PathInfo.validate PathInfo.fields.
Proof.
  unfold PathInfo.validate, PathInfo.validate_value.
  cbn [PathInfo.validate_nested]. reads_only_chain.
Qed.

Lemma ConfigOption_reads_only :
  reads_only ConfigOption.validate ConfigOption.fields.
Proof. unfold ConfigOption.validate. reads_only_chain. Qed.

Lemma Response_reads_only : reads_only Response.validate Response.fields.
Proof. unfold Response.validate. reads_only_chain. Qed.

Lemma ServerPlayers_round_trip p :
  ServerPlayers.validate (ServerPlayers.to_wire p) = Valid p.
Proof.
  destruct p as [m c l]. unfold ServerPlayers.validate, ServerPlayers.to_wire.
  cbn -[items]. rewrite (items_map (str_v false) JStr l); [reflexivity|].
  apply Forall_forall. reflexivity.
Qed.

Lemma ServerSoftware_round_trip s :
  ServerSoftware.validate (ServerSoftware.to_wire s) = Valid s.
Proof. destruct s. reflexivity. Qed.

(** X1: a status and its number determine each other.  Validating the
    number of a member gives that member, and an integer validates to a
    member only if it is that member's number; so no two members share a
    number. *)
Theorem X1_status_round_trip :
  (forall s, ServerStatus.validate (JInt (ServerStatus.value s)) = Valid s)
  /\ (forall z s, ServerStatus.validate (JInt z) = Valid s
                  <-> ServerStatus.value s = z).
Proof.
  assert (H : forall s,
             ServerStatus.validate (JInt (ServerStatus.value s)) = Valid s).
  { intros s. simpl. unfold ServerStatus.of_value_v.
    now rewrite of_value_value. }
  split; [exact H|]. intros z s. split.
  - simpl. unfold ServerStatus.of_value_v.
    destruct (ServerStatus.of_value z) as [s'|] eqn:E; [|discriminate].
    intros [= ->]. now apply of_value_Some.
  - intros <-. apply H.
Qed.

(** X2: a model reads a mapping only through the wire names of its
    declared fields.  Two mappings that agree under these names validate
    alike: keys that are not declared are ignored and the order of the
    keys does not matter.  This holds for every model and for the
    envelope. *)
Theorem X2_only_declared_keys_are_read :
  reads_only Account.validate Account.fields
  /\ reads_only ServerPlayers.validate ServerPlayers.fields
  /\ reads_only ServerSoftware.validate ServerSoftware.fields
  /\ reads_only Server.validate Server.fields
  /\ reads_only LogUpload.validate LogUpload.fields
  /\ reads_only PathInfo.validate PathInfo.fields
  /\ reads_only ConfigOption.validate ConfigOption.fields
  /\ reads_only Response.validate Response.fields.
Proof.
  split; [apply Account_reads_only|].
  split; [apply ServerPlayers_reads_only|].
  split; [apply ServerSoftware_reads_only|].
  split; [apply Server_reads_only|].
  split; [apply LogUpload_reads_only|].
  split; [apply PathInfo_reads_only|].
  split; [apply ConfigOption_reads_only|].
  apply Response_reads_only.
Qed.

Lemma Account_round_trip a : Account.validate (Account.to_wire a) = Valid a.
Proof. destruct a. reflexivity. Qed.

Lemma LogUpload_round_trip l :
  LogUpload.validate (LogUpload.to_wire l) = Valid l.
Proof. destruct l. reflexivity. Qed.

Lemma Server_round_trip s : Server.validate (Server.to_wire s) = Valid s.
Proof.
  destruct s as [i n a m st h p pl sw sh].
  unfold Server.validate, Server.to_wire. rewrite !required_get.
  cbn [get String.eqb Ascii.eqb Bool.eqb Server.id Server.name Server.address
       Server.motd Server.status Server.host Server.port Server.players
       Server.software Server.shared model_v].
  rewrite ServerPlayers_round_trip.
  replace (ServerStatus.validate (JInt (ServerStatus.value st)))
    with (Valid st) by (destruct st; reflexivity).
  destruct h, p, sw as [w|]; cbn [nullable model_v];
    rewrite ?ServerSoftware_round_trip; reflexivity.
Qed.

Lemma ConfigOption_round_trip o :
  ConfigOption.validate (ConfigOption.to_wire o) = Valid o.
Proof.
  destruct o as [k v l t opts].
  unfold ConfigOption.validate, ConfigOption.to_wire. rewrite !required_get.
  cbn [get String.eqb Ascii.eqb Bool.eqb ConfigOption.key ConfigOption.value
       ConfigOption.label ConfigOption.type ConfigOption.options].
  rewrite scalar_v_to_json.
  destruct opts as [l'|]; [|reflexivity].
  assert (E : nullable (list_of ConfigOption.scalar_v)
                (JList (map ConfigOption.to_json l')) = Valid (Some l')).
  { cbn -[items ConfigOption.scalar_v].
    rewrite (items_map ConfigOption.scalar_v ConfigOption.to_json l');
      [reflexivity|].
    apply Forall_forall. intros x _. apply scalar_v_to_json. }
  rewrite E. reflexivity.
Qed.


(** X3: [Account] and [LogUpload] are read back from their wire form.
    The credits are kept as the float they are on the wire; credits sent
    as an integer are converted to a float, and rejected under
    [credits] when the integer has no float. *)
Theorem X3_flat_records_round_trip :
  (forall a, Account.validate (Account.to_wire a) = Valid a)
  /\ (forall l, LogUpload.validate (LogUpload.to_wire l) = Valid l)
  /\ (forall n e v z,
        Account.validate [("name", JStr n); ("email", JStr e);
                          ("verified", JBool v); ("credits", JInt z)]
        = match int_as_float z with
          | Some f => Valid (Account.mk n e v f)
          | None => Invalid [mkError [Key "credits"] float_type]
          end).
Proof.
  split; [exact Account_round_trip|]. split; [exact LogUpload_round_trip|].
  intros n e v z. unfold Account.validate. cbn.
  destruct (int_as_float z); reflexivity.
Qed.

(** X4: a [Server] is read back from its wire form, whatever it holds:
    each status from its number, an absent host, port or software from
    [null], the players and the software as the nested records they
    are. *)
Theorem X4_server_round_trip (s : Server.t) :
  Server.validate (Server.to_wire s) = Valid s.
Proof. apply Server_round_trip. Qed.

(** X5: a [ConfigOption] is read back from its wire form.  The value and
    every permitted value of [options] keep their kind, item by item and
    in order: a list that mixes strings, integers, floats and booleans
    comes back as it is. *)
Theorem X5_config_option_round_trip (o : ConfigOption.t) :
  ConfigOption.validate (ConfigOption.to_wire o) = Valid o.
Proof. apply ConfigOption_round_trip. Qed.

(** X6: [PathInfo] takes its aliased fields from the alias only.  What a
    mapping holds under the Python name of such a field is not read:
    adding it changes nothing, and it does not stand in for the alias,
    which is reported missing. *)
Theorem X6_aliased_fields_are_read_by_alias (d : dict) (x : json) :
  PathInfo.validate (("is_text_file", x) :: d) = PathInfo.validate d
  /\ PathInfo.validate (("is_config_file", x) :: d) = PathInfo.validate d
  /\ PathInfo.validate (("is_directory", x) :: d) = PathInfo.validate d
  /\ PathInfo.validate (("is_log", x) :: d) = PathInfo.validate d
  /\ PathInfo.validate (("is_readable", x) :: d) = PathInfo.validate d
  /\ PathInfo.validate (("is_writable", x) :: d) = PathInfo.validate d
  /\ (get "isTextFile" d = None ->
      fails_with (mkError [Key "isTextFile"] missing)
        (PathInfo.validate (("is_text_file", x) :: d))).
Proof.
  repeat (split;
          [ apply PathInfo_reads_only; intros f Hin; simpl in Hin;
            repeat (destruct Hin as [<-|Hin]; [reflexivity|]);
            contradiction | ]).
  intros E. unfold PathInfo.validate, PathInfo.validate_value.
  cbn [PathInfo.validate_nested].
  assert (E' : get "isTextFile" (("is_text_file", x) :: d) = None)
    by exact E.
  missing_field E'.
Qed.

End ModelProperties.

(** ** Further properties of the client *)

Section ClientProperties.
Context {N : Numeric} {G : RecursionGuard}.

Import Client.

Ltac run_all :=
  unfold account, servers, server, log, share_log, ram, set_ram, motd,
    set_motd, start, stop, restart, execute_command, enabled_playerlists,
    playerlist_content, add_to_playerlist, remove_from_playerlist, path_info,
    get_config_options, set_config_options,
    Files.read_file_data, Files.write_file_data, Files.create_directory,
    Files.delete_file_data,
    _get_data, _post_object, _put_object, _delete_object, replies, answers,
    bind.

(** X7: an exception of the transport reaches the caller as it is.
    No operation catches it, replaces it or tries again. *)
Theorem X7_transport_errors_propagate (self : Client) (e : exn) :
  account (answers (Raise e)) self = Raise e
  /\ servers (answers (Raise e)) self = Raise e
  /\ (forall id, server (answers (Raise e)) self id = Raise e)
  /\ (forall id, log (answers (Raise e)) self id = Raise e)
  /\ (forall id, share_log (answers (Raise e)) self id = Raise e)
  /\ (forall id, ram (answers (Raise e)) self id = Raise e)
  /\ (forall id z, set_ram (answers (Raise e)) self id z = Raise e)
  /\ (forall id, motd (answers (Raise e)) self id = Raise e)
  /\ (forall id m, set_motd (answers (Raise e)) self id m = Raise e)
  /\ (forall id b, start (answers (Raise e)) self id b = Raise e)
  /\ (forall id, stop (answers (Raise e)) self id = Raise e)
  /\ (forall id, restart (answers (Raise e)) self id = Raise e)
  /\ (forall id c, execute_command (answers (Raise e)) self id c = Raise e)
  /\ (forall id, enabled_playerlists (answers (Raise e)) self id = Raise e)
  /\ (forall id l, playerlist_content (answers (Raise e)) self id l = Raise e)
  /\ (forall id l c, add_to_playerlist (answers (Raise e)) self id l c
                     = Raise e)
  /\ (forall id l c, remove_from_playerlist (answers (Raise e)) self id l c
                     = Raise e)
  /\ (forall id p, path_info (answers (Raise e)) self id p = Raise e)
  /\ (forall id p, get_config_options (answers (Raise e)) self id p = Raise e)
  /\ (forall id o p, set_config_options (answers (Raise e)) self id o p
                     = Raise e)
  /\ (forall (response : Type) json read id p,
        @Files.read_file_data response (fun _ _ _ _ => Raise e) read self id p
        = Raise e
        /\ (forall data,
              @Files.write_file_data N response (fun _ _ _ _ => Raise e) json
                self id p data = Raise e)
        /\ @Files.create_directory N response (fun _ _ _ _ => Raise e) json
             self id p = Raise e
        /\ @Files.delete_file_data N response (fun _ _ _ _ => Raise e) json
             self id p = Raise e).
Proof.
  repeat split; intros; run_all;
    try match goal with b : bool |- _ => destruct b end; reflexivity.
Qed.

(** X8: what the GET decoder can do with a body.  It returns only a
    [dict], a [list], a [str] or [None], and only from an object; it
    raises [TypeError] exactly for a body that is not an object, and
    [ValidationError] with a list of errors that is not empty and names
    only the three keys of the envelope; it raises [ExaError] only for an
    object; it never raises anything else. *)
Theorem X8_get_data_outcomes (self : Client) (raw : json) (route : string) :
  match _get_data (replies raw) self route with
  | Return x => is_payload x = true /\ is_dict raw = true
  | Raise TypeError => is_dict raw = false
  | Raise (ValidationError errs) =>
      is_dict raw = true /\ errs <> []
      /\ Forall (fun e => exists f, In f Response.fields
                          /\ hd_error (loc e) = Some (Key (fst f))) errs
  | Raise (ExaError _) => is_dict raw = true
  | Raise _ => False
  end.
Proof.
  unfold _get_data, replies, bind, construct.
  destruct raw as [ | | | | | |d]; try reflexivity.
  destruct (Response.validate d) as [r|errs] eqn:E.
  - destruct (Response.success r); [|reflexivity].
    apply Response_validate_inv in E. now split.
  - destruct (Response_all_or_nothing d) as (_ & Hne & _ & Hloc).
    rewrite E in Hne, Hloc. simpl in Hne, Hloc. auto.
Qed.

(** X9: the decoders of POST, PUT and DELETE are the GET decoder
    followed by the rejection of [None]: on every body they do what the
    GET decoder does, except that a [None] payload becomes an
    [AssertionError].  What they return is never [None]. *)
Theorem X9_object_decoders_refine_get_data (self : Client) (raw : json)
  (route : string) (object : dict) :
  let checked :=
    bind (_get_data (replies raw) self route)
      (fun x => bind (assert (negb (is_none x))) (fun _ => Return x)) in
  _post_object (replies raw) self route object = checked
  /\ _put_object (replies raw) self route object = checked
  /\ _delete_object (replies raw) self route object = checked
  /\ checked <> Return JNull.
Proof.
  unfold _get_data, _post_object, _put_object, _delete_object, replies, bind.
  destruct (construct Response.validate raw) as [r|e]; simpl.
  - destruct (Response.success r); simpl.
    + destruct (Response.data r); simpl; repeat split; discriminate.
    + repeat split; discriminate.
  - repeat split; discriminate.
Qed.

(** X10: the acknowledgement of a file operation is decoded as [stop]
    decodes its own.  Whatever the response holds, [write_file_data],
    [create_directory] and [delete_file_data] do what [stop] does on that
    body: a string or [None] is returned, a [None] acknowledgement
    included, a [dict] or a [list] raises [AssertionError], a failure
    raises [ExaError]. *)
Theorem X10_file_acknowledgements (self : Client) (response : Type)
  (rsp : response) (response_json : response -> outcome json)
  (server_id path other_id : string) (data : Files.bytes) :
  Files.write_file_data response (fun _ _ _ _ => Return rsp) response_json
    self server_id path data
  = stop (answers (response_json rsp)) self other_id
  /\ Files.create_directory response (fun _ _ _ _ => Return rsp) response_json
       self server_id path
     = stop (answers (response_json rsp)) self other_id
  /\ Files.delete_file_data response (fun _ _ _ _ => Return rsp) response_json
       self server_id path
     = stop (answers (response_json rsp)) self other_id.
Proof.
  run_all. destruct (response_json rsp) as [raw|e]; [|repeat split].
  destruct (construct Response.validate raw) as [r|e]; [|repeat split].
  destruct (Response.success r); repeat split.
Qed.

(** X11: what [start], [stop], [restart] and [execute_command] return
    is a string or [None], and they raise no [KeyError].  On the POST
    path, which [execute_command] and [start] with [use_own_credits]
    take, [None] is not returned either: only a string is. *)
Theorem X11_acknowledgement_shapes (self : Client) (raw : json)
  (server_id command : string) :
  let str_or_none (o : outcome json) :=
    match o with
    | Return x => is_str x || is_none x = true
    | Raise (KeyError _) => False
    | Raise _ => True
    end in
  let str_only (o : outcome json) :=
    match o with
    | Return x => is_str x = true
    | Raise (KeyError _) => False
    | Raise _ => True
    end in
  str_or_none (stop (replies raw) self server_id)
  /\ str_or_none (restart (replies raw) self server_id)
  /\ str_or_none (start (replies raw) self server_id false)
  /\ str_only (start (replies raw) self server_id true)
  /\ str_only (execute_command (replies raw) self server_id command).
Proof.
  cbv zeta. run_all. unfold construct.
  destruct raw as [ | | | | | |d]; try solve [repeat split].
  destruct (Response.validate d) as [r|errs]; [|solve [repeat split]].
  destruct (Response.success r); [|solve [repeat split]].
  destruct (Response.data r); solve [repeat split].
Qed.

Lemma for_each_map {A B} (f : A -> outcome B) (w : B -> A) l :
  (forall b, f (w b) = Return b) -> for_each f (map w l) = Return l.
Proof.
  intros H. induction l as [|b l IH]; simpl; [reflexivity|].
  unfold bind. now rewrite H, IH.
Qed.

Lemma for_each_first_failure {A B} (f : A -> outcome B) l1 x l2 ys e :
  for_each f l1 = Return ys -> f x = Raise e ->
  for_each f (l1 ++ x :: l2) = Raise e.
Proof.
  revert ys. induction l1 as [|a l1 IH]; simpl; intros ys Hl Hx.
  - unfold bind. now rewrite Hx.
  - unfold bind in *. destruct (f a) as [b|e']; [|discriminate].
    destruct (for_each f l1) as [ys'|e']; [|discriminate].
    now rewrite (IH ys' eq_refl Hx).
Qed.

Lemma construct_to_wire {A} (validate : dict -> validation A)
  (to_wire : A -> dict) :
  (forall a, validate (to_wire a) = Valid a) ->
  forall a, construct validate (JDict (to_wire a)) = Return a.
Proof. intros H a. simpl. now rewrite H. Qed.

(** X12: the operations on player lists hand the list of the envelope
    to the caller as it is, an empty list included and whatever its
    items are: the items are not checked to be strings.  What these
    operations return is always a list. *)
Theorem X12_playerlists (self : Client) (raw : json) (l : list json)
  (server_id list_name : string) (content : list string) :
  let list_only (o : outcome json) :=
    match o with
    | Return x => is_list x = true
    | Raise (KeyError _) => False
    | Raise _ => True
    end in
  enabled_playerlists (replies (envelope true JNull (JList l))) self server_id
    = Return (JList l)
  /\ playerlist_content (replies (envelope true JNull (JList l))) self
       server_id list_name
     = Return (JList l)
  /\ add_to_playerlist (replies (envelope true JNull (JList l))) self
       server_id list_name content
     = Return (JList l)
  /\ remove_from_playerlist (replies (envelope true JNull (JList l))) self
       server_id list_name content
     = Return (JList l)
  /\ list_only (enabled_playerlists (replies raw) self server_id)
  /\ list_only (playerlist_content (replies raw) self server_id list_name)
  /\ list_only (add_to_playerlist (replies raw) self server_id list_name
                  content)
  /\ list_only (remove_from_playerlist (replies raw) self server_id
                  list_name content).
Proof.
  cbv zeta. do 4 (split; [reflexivity|]).
  run_all. unfold construct.
  destruct raw as [ | | | | | |d]; try solve [repeat split].
  destruct (Response.validate d) as [r|errs]; [|solve [repeat split]].
  destruct (Response.success r); [|solve [repeat split]].
  destruct (Response.data r); solve [repeat split].
Qed.


(** X14: [servers], [get_config_options] and [set_config_options]
    validate the items of the envelope's list one by one and return the
    records in the order of the list, none for an empty list: what the
    service sends for a list of records is what the call returns. *)
Theorem X14_list_operations (self : Client) (server_id path : string)
  (options : dict) :
  (forall ss,
     servers (replies (envelope true JNull
                (JList (map (fun s => JDict (Server.to_wire s)) ss)))) self
     = Return ss)
  /\ (forall os,
        get_config_options
          (replies (envelope true JNull
             (JList (map (fun o => JDict (ConfigOption.to_wire o)) os))))
          self server_id path
        = Return os)
  /\ (forall os,
        set_config_options
          (replies (envelope true JNull
             (JList (map (fun o => JDict (ConfigOption.to_wire o)) os))))
          self server_id options path
        = Return os).
Proof.
  split; [|split]; intros l; run_all;
    cbn -[for_each Server.validate ConfigOption.validate Server.to_wire
          ConfigOption.to_wire];
    apply for_each_map;
    first [ apply (construct_to_wire Server.validate), Server_round_trip
          | apply (construct_to_wire ConfigOption.validate),
              ConfigOption_round_trip ].
Qed.

(** X15: in a list of records the first item that is not accepted
    decides.  [servers], [get_config_options] and [set_config_options]
    raise what its construction raises, [TypeError] for an item that is
    not an object or [ValidationError] with the errors of that item
    alone; the records before it are dropped and the items after it are
    not looked at. *)
Theorem X15_first_rejected_item (self : Client) (l1 l2 : list json)
  (x : json) (e : exn) (server_id path : string) (options : dict) :
  (forall ss,
     for_each (construct Server.validate) l1 = Return ss ->
     construct Server.validate x = Raise e ->
     servers (replies (envelope true JNull (JList (l1 ++ x :: l2)))) self
     = Raise e)
  /\ (forall os,
        for_each (construct ConfigOption.validate) l1 = Return os ->
        construct ConfigOption.validate x = Raise e ->
        get_config_options
          (replies (envelope true JNull (JList (l1 ++ x :: l2))))
          self server_id path
        = Raise e
        /\ set_config_options
             (replies (envelope true JNull (JList (l1 ++ x :: l2))))
             self server_id options path
           = Raise e).
Proof.
  split.
  - intros ss Hl Hx. run_all.
    cbn -[for_each Server.validate construct].
    exact (for_each_first_failure _ l1 x l2 ss e Hl Hx).
  - intros os Hl Hx. split; run_all;
      cbn -[for_each ConfigOption.validate construct];
      exact (for_each_first_failure _ l1 x l2 os e Hl Hx).
Qed.

(** X16: [log], [ram], [motd], [set_ram] and [set_motd] return what the
    object of a successful envelope holds under their key, as it is and
    whatever it is, a number, text or [None]; without the key they raise
    [KeyError]. *)
Theorem X16_subscript_operations (self : Client) (d : dict)
  (server_id new_motd : string) (new_ram : Z) :
  let body := replies (envelope true JNull (JDict d)) in
  let item (k : string) : outcome json :=
    match get k d with
    | Some y => Return y
    | None => Raise (KeyError k)
    end in
  log body self server_id = item "content"
  /\ ram body self server_id = item "ram"
  /\ motd body self server_id = item "motd"
  /\ set_ram body self server_id new_ram = item "ram"
  /\ set_motd body self server_id new_motd = item "motd".
Proof. cbv zeta. repeat split. Qed.

(** X17: the request behind each operation that changes something.
    The operation sees the service through one request only, with the
    client's token: [set_ram] posts [{"ram": ram}] and [set_motd]
    [{"motd": motd}] to the option's route; [start] gets the start route,
    and with [use_own_credits] posts [{"useOwnCredits": true}] to it;
    [execute_command] posts [{"command": command}]; the player list
    operations put and delete [{"entries": content}]; and
    [set_config_options] posts the options as they are given. *)
Theorem X17_requests_of_mutations
  (request : verb -> string -> string -> option dict -> outcome json)
  (self : Client) (server_id list_name path text : string) (amount : Z)
  (content : list string) (options : dict) :
  let url (route : string) : string :=
    ("https://api.exaroton.com/v1/servers/" ++ server_id ++ route)%string in
  let token := _token self in
  set_ram request self server_id amount
  = set_ram (answers (request POST (url "/options/ram") token
                        (Some [("ram", JInt amount)])))
      self server_id amount
  /\ set_motd request self server_id text
     = set_motd (answers (request POST (url "/options/motd") token
                            (Some [("motd", JStr text)])))
         self server_id text
  /\ start request self server_id false
     = start (answers (request GET (url "/start") token None))
         self server_id false
  /\ start request self server_id true
     = start (answers (request POST (url "/start") token
                         (Some [("useOwnCredits", JBool true)])))
         self server_id true
  /\ execute_command request self server_id text
     = execute_command (answers (request POST (url "/command") token
                                   (Some [("command", JStr text)])))
         self server_id text
  /\ add_to_playerlist request self server_id list_name content
     = add_to_playerlist
         (answers (request PUT (url ("/playerlists/" ++ list_name)%string) token
                     (Some [("entries", JList (map JStr content))])))
         self server_id list_name content
  /\ remove_from_playerlist request self server_id list_name content
     = remove_from_playerlist
         (answers (request DELETE (url ("/playerlists/" ++ list_name)%string) token
                     (Some [("entries", JList (map JStr content))])))
         self server_id list_name content
  /\ set_config_options request self server_id options path
     = set_config_options
         (answers (request POST (url ("/files/config/" ++ path)%string) token
                     (Some options)))
         self server_id options path.
Proof.
  cbv zeta. unfold set_ram, set_motd, start, execute_command,
    add_to_playerlist, remove_from_playerlist, set_config_options,
    _get_data, _post_object, _put_object, _delete_object, answers, BASE_URL.
  assert (E : forall a b : string,
             ("https://api.exaroton.com/v1/" ++ ("servers/" ++ a ++ b)
              = "https://api.exaroton.com/v1/servers/" ++ a ++ b)%string)
    by reflexivity.
  rewrite !E. repeat split.
Qed.

(** X18: the data of an envelope has to be an object, a list, text or
    [null].  A body whose data is a number or a boolean is not a valid
    [Response]: every decoder raises [ValidationError], with an error
    under [data], and does so before [success] is looked at, so also
    where an [ExaError] would be due. *)
Theorem X18_scalar_data_is_rejected (self : Client) (success : bool)
  (error x : json) (route : string) (object : dict) :
  is_payload x = false ->
  exists errs,
    cites "data" errs = true
    /\ _get_data (replies (envelope success error x)) self route
       = Raise (ValidationError errs)
    /\ _post_object (replies (envelope success error x)) self route object
       = Raise (ValidationError errs)
    /\ _put_object (replies (envelope success error x)) self route object
       = Raise (ValidationError errs)
    /\ _delete_object (replies (envelope success error x)) self route object
       = Raise (ValidationError errs).
Proof.
  intros Hp. unfold envelope.
  set (d := [("success", JBool success); ("error", error); ("data", x)]).
  destruct (Response_all_or_nothing d) as (Hv & _ & Hc & _).
  specialize (Hc ("data", accepts Response.data_v)). simpl fst in Hc.
  assert (Hx : violates ("data", accepts Response.data_v) d = true).
  { unfold violates, accepts. simpl.
    destruct x; try discriminate Hp; reflexivity. }
  rewrite Hx in Hc.
  assert (Hi : is_valid (Response.validate d) = false).
  { rewrite Hv. cbn [forallb Response.fields]. rewrite Hx. simpl.
    now rewrite !andb_false_r. }
  destruct (Response.validate d) as [r|errs] eqn:E; [discriminate|].
  exists errs. split; [apply Hc; simpl; tauto|].
  unfold _get_data, _post_object, _put_object, _delete_object, replies, bind,
    construct.
  rewrite E. repeat split.
Qed.

(** X19: the requests of the four file operations.  They address one
    URL, the file's [files/data] route, with the client's token as bearer
    authorization: [read_file_data] gets it and returns the bytes of the
    response without decoding any envelope; [write_file_data] puts the
    data; [create_directory] puts no data and adds the content type
    [inode/directory]; [delete_file_data] deletes. *)
Theorem X19_requests_of_file_operations (response : Type)
  (session : Files.headers -> verb -> string -> option Files.bytes
             -> outcome response)
  (response_json : response -> outcome json)
  (response_read : response -> outcome Files.bytes)
  (self : Client) (server_id path : string) (data : Files.bytes) :
  let url : string :=
    ("https://api.exaroton.com/v1/servers/" ++ server_id ++ "/files/data/"
     ++ path)%string in
  let authorization : string * string :=
    ("Authorization", ("Bearer " ++ _token self)%string) in
  Files.read_file_data response session response_read self server_id path
  = bind (session [authorization] GET url None) response_read
  /\ Files.write_file_data response session response_json self server_id
       path data
     = Files.write_file_data response
         (fun _ _ _ _ => session [authorization] PUT url (Some data))
         response_json self server_id path data
  /\ Files.create_directory response session response_json self server_id
       path
     = Files.create_directory response
         (fun _ _ _ _ =>
            session [authorization; ("content-type", "inode/directory")]
              PUT url None)
         response_json self server_id path
  /\ Files.delete_file_data response session response_json self server_id
       path
     = Files.delete_file_data response
         (fun _ _ _ _ => session [authorization] DELETE url None)
         response_json self server_id path.
Proof.
  cbv zeta. unfold Files.read_file_data, Files.write_file_data,
    Files.create_directory, Files.delete_file_data, BASE_URL.
  assert (E : forall a b : string,
             ("https://api.exaroton.com/v1/" ++ ("servers/" ++ a ++ b)
              = "https://api.exaroton.com/v1/servers/" ++ a ++ b)%string)
    by reflexivity.
  rewrite !E. repeat split.
Qed.

End ClientProperties.

(** ** The further properties at sample payloads *)

(** X2 at the account of the test, its keys in reverse order and with a
    key that is not declared. *)
Lemma X2_witness :
  Account.validate (("plan", JStr "free") :: rev Samples.normal_account)
  = Account.validate Samples.normal_account.
Proof.
  apply (proj1 (@X2_only_declared_keys_are_read binary64 pydantic_core)).
  intros f Hin. simpl in Hin.
  repeat (destruct Hin as [<-|Hin]; [reflexivity|]). contradiction.
Defined.

(** X6 at a node sent with the Python name of [is_text_file]. *)
Lemma X6_witness :
  get "isTextFile" [("path", @JStr binary64 "a"); ("name", JStr "a")] = None
  /\ fails_with (mkError [Key "isTextFile"] missing)
       (PathInfo.validate
          [("is_text_file", JBool true); ("path", @JStr binary64 "a");
           ("name", JStr "a")]).
Proof.
  split; [reflexivity|].
  exact (proj2 (proj2 (proj2 (proj2 (proj2 (proj2
           (@X6_aliased_fields_are_read_by_alias binary64 pydantic_core
              [("path", JStr "a"); ("name", JStr "a")] (JBool true)))))))
           eq_refl).
Defined.

(** X15 at a list whose second item is text: the server before it is
    dropped and the faulty server after it is not reported. *)
Lemma X15_witness :
  Client.construct Server.validate (@JStr binary64 "offline")
  = Client.Raise Client.TypeError
  /\ Client.servers
       (Client.replies
          (Client.envelope true JNull
             (JList ([JDict Samples.normal_server] ++ JStr "offline"
                     :: [JDict Samples.server_bad_name]))))
       Samples.client
     = Client.Raise Client.TypeError.
Proof.
  split; [reflexivity|].
  exact (proj1 (@X15_first_rejected_item binary64 Samples.client
                  [JDict Samples.normal_server]
                  [JDict Samples.server_bad_name] (JStr "offline")
                  Client.TypeError "" "" [])
           [Samples.normal_server_record] eq_refl eq_refl).
Defined.

(** X18 at a failure whose data is a number. *)
Lemma X18_witness :
  Client.is_payload (@JInt binary64 404) = false
  /\ exists errs,
       cites "data" errs = true
       /\ Client._get_data
            (Client.replies
               (Client.envelope false (JStr "Not found") (JInt 404)))
            Samples.client "servers"
          = Client.Raise (Client.ValidationError errs).
Proof.
  split; [reflexivity|].
  destruct (@X18_scalar_data_is_rejected binary64 Samples.client false
              (JStr "Not found") (JInt 404) "servers" [] eq_refl)
    as (errs & Hc & Hg & _).
  exists errs. split; [exact Hc | exact Hg].
Defined.

